(** * cprofilev: the report formatter, the session and the controller

    A shallow embedding of [cprofilev.py].  Python [str] values are modelled
    as [string] (characters in the range 0..255), a [dict] as an association
    list in insertion order with unique keys (the iteration order of a
    Python 3.7+ [dict]), the [StringIO] buffer as a record with its contents
    and its position, and exceptions as an error monad.  The three external
    collaborators (bottle's templates and request, [re], [pstats]) are
    modelled at their interface. *)

From Stdlib Require Import String Ascii List Bool Arith Lia.
Import ListNotations.
Open Scope string_scope.

(** ** Python string primitives *)

Module PyStr.

(** [s[n:]] *)
Fixpoint drop (n : nat) (s : string) : string :=
  match n, s with
  | O, _ => s
  | S _, EmptyString => EmptyString
  | S n', String _ s' => drop n' s'
  end.

(** [s[:n]] *)
Fixpoint take (n : nat) (s : string) : string :=
  match n, s with
  | O, _ => EmptyString
  | S _, EmptyString => EmptyString
  | S n', String c s' => String c (take n' s')
  end.

(** [s[:-1]] *)
Definition chop_last (s : string) : string :=
  take (String.length s - 1) s.

(** [s.startswith(p)] *)
Fixpoint startswith (p s : string) : bool :=
  match p, s with
  | EmptyString, _ => true
  | String _ _, EmptyString => false
  | String a p', String b s' => Ascii.eqb a b && startswith p' s'
  end.

(** [s.find(p)]: the least index at which [p] occurs, [None] for -1. *)
Fixpoint find (p s : string) : option nat :=
  if startswith p s then Some 0
  else match s with
       | EmptyString => None
       | String _ s' => option_map S (find p s')
       end.

(** [p in s] *)
Definition contains (p s : string) : bool :=
  match find p s with Some _ => true | None => false end.

(** [s.replace(old, new)] for a non-empty [old]: the occurrences of [old]
    are found from left to right and do not overlap.  [skip] counts the
    characters of a just-replaced occurrence that remain to be passed. *)
Fixpoint replace_from (skip : nat) (old new s : string) : string :=
  match s with
  | EmptyString => EmptyString
  | String c s' =>
      match skip with
      | S k => replace_from k old new s'
      | O => if startswith old s
             then new ++ replace_from (String.length old - 1) old new s'
             else String c (replace_from 0 old new s')
      end
  end.

Definition replace (old new s : string) : string :=
  replace_from 0 old new s.

(** [sep.join(l)] with an empty separator *)
Definition join_empty (l : list string) : string :=
  fold_right String.append EmptyString l.

(** [c in s] for one character *)
Fixpoint has_char (c : ascii) (s : string) : bool :=
  match s with
  | EmptyString => false
  | String a s' => Ascii.eqb a c || has_char c s'
  end.

End PyStr.

(** ** Python values and dictionaries *)

(** A value stored in the query dictionaries: [None] or a [str]. *)
Definition pyval := option string.

(** A [dict] with [str] keys, in insertion order. *)
Definition dict := list (string * pyval).

(** [d[k] = v]: an existing key keeps its place, a new key goes last. *)
Fixpoint dict_setitem (k : string) (v : pyval) (d : dict) : dict :=
  match d with
  | [] => [(k, v)]
  | (k', v') :: d' =>
      if String.eqb k k' then (k', v) :: d'
      else (k', v') :: dict_setitem k v d'
  end.

(** [d[k]], [None] standing for [KeyError]. *)
Fixpoint dict_getitem (k : string) (d : dict) : option pyval :=
  match d with
  | [] => None
  | (k', v') :: d' => if String.eqb k k' then Some v' else dict_getitem k d'
  end.

(** [d.keys()] *)
Definition dict_keys (d : dict) : list string := map fst d.

(** [for key, val in keyvals.items(): d[key] = val] *)
Definition dict_assign_all (keyvals : dict) (d : dict) : dict :=
  fold_left (fun q kv => dict_setitem (fst kv) (snd kv) q) keyvals d.

(** ** The request (bottle)

    [bottle.request.query] is a multi-dictionary filled from the parsed
    pairs of the query string, in order; [dict(bottle.request.query)] keeps
    each key once, at the place of its first occurrence, with its last
    value.  The request is passed explicitly. *)

Definition request_query := list (string * string).

Definition dict_of_query (q : request_query) : dict :=
  fold_left (fun d kv => dict_setitem (fst kv) (Some (snd kv)) d) q [].

(** [bottle.request.query.get(key)]: the last value of [key], if any. *)
Fixpoint query_get (key : string) (q : request_query) : option string :=
  match q with
  | [] => None
  | (k, v) :: q' =>
      match query_get key q' with
      | Some v' => Some v'
      | None => if String.eqb key k then Some v else None
      end
  end.

Definition SORT_KEY := "sort".
Definition FUNC_NAME_KEY := "func_name".
Definition FUNC_LOC_KEY := "func_loc".

(** ** [Stats.get_updated_href] *)

Module Stats.

Definition IGNORE_FUNC_NAMES : list string := ["function"; ""].
Definition DEFAULT_SORT_ARG := "cumulative".
Definition SORT_ARGS : list (string * string) :=
  [("ncalls", "calls"); ("tottime", "time"); ("cumtime", "cumulative");
   ("filename", "module"); ("lineno", "nfl")].
Definition FUNCTION_SIG_HEADER := "filename:lineno(function)".

(** The second loop of [get_updated_href]:
    [if query[key] is not None: href += '%s=%s&' % (key, query[key])]. *)
Definition href_step (query : dict) (href key : string) : string :=
  match dict_getitem key query with
  | Some (Some v) => href ++ key ++ "=" ++ v ++ "&"
  | _ => href
  end.

Definition get_updated_href (rq : request_query) (keyvals : dict) : string :=
  let href := "?" in
  let query := dict_of_query rq in
  let query := dict_assign_all keyvals query in
  let href := fold_left (href_step query) (dict_keys query) href in
  PyStr.chop_last href.

End Stats.

(** ** The link-target rule in the words of the specification *)

Module LinkRule.

Definition has_key (k : string) (d : dict) : bool :=
  existsb (String.eqb k) (dict_keys d).

(** A current parameter with the changed value laid over it, where its
    key is one of the changed keys. *)
Definition laid (changed : dict) (kv : string * pyval) : string * pyval :=
  (fst kv, match dict_getitem (fst kv) changed with
           | Some v => v
           | None => snd kv
           end).

(** A changed key that is not among the current ones. *)
Definition fresh_for (current : dict) (kv : string * pyval) : bool :=
  negb (has_key (fst kv) current).

(** The parameters after the overlay: each current parameter, with the
    changed value where its key is changed, and then the changed keys
    that are not among the current ones. *)
Definition overlay (rq : request_query) (changed : dict) : dict :=
  let current := dict_of_query rq in
  (map (laid changed) current ++ filter (fresh_for current) changed)%list.

(** Dropping the parameters whose value is absent. *)
Fixpoint present (d : dict) : list (string * string) :=
  match d with
  | [] => []
  | (k, Some v) :: d' => (k, v) :: present d'
  | (_, None) :: d' => present d'
  end.

(** Dropping the parameters whose value is absent or the empty string. *)
Definition non_empty (d : dict) : list (string * string) :=
  filter (fun kv => negb (String.eqb (snd kv) "")) (present d).

Definition pair_text (kv : string * string) : string :=
  fst kv ++ "=" ++ snd kv.

(** [key=value] pairs separated by [&], after a [?]; nothing at all when
    no parameter remains. *)
Definition query_string (l : list (string * string)) : string :=
  match l with
  | [] => ""
  | _ => "?" ++ String.concat "&" (map pair_text l)
  end.

(** The rule as the specification words it: empty and absent values are
    both dropped. *)
Definition target_dropping_empty (rq : request_query) (changed : dict) : string :=
  query_string (non_empty (overlay rq changed)).

(** The rule with only the absent values dropped. *)
Definition target_dropping_absent (rq : request_query) (changed : dict) : string :=
  query_string (present (overlay rq changed)).

(** The text that [Stats.get_updated_href] puts after the question mark:
    each pair followed by [&]. *)
Definition pairs_text (l : list (string * string)) : string :=
  PyStr.join_empty (map (fun kv => fst kv ++ "=" ++ snd kv ++ "&") l).

(** The pairs that [Stats.get_updated_href] writes into its target: the
    entries of its query dictionary, after the assignments, that hold a
    string, in the order of the dictionary.  This is the dictionary of the
    function and not a reading of the target text: the values are written
    as they are, so a value that holds [&] or [=] makes a text from which
    a parser reads other pairs. *)
Definition carried (rq : request_query) (keyvals : dict) : request_query :=
  present (dict_assign_all keyvals (dict_of_query rq)).

End LinkRule.

(** ** Characters used by the formatter *)

Definition LF : ascii := "010"%char.
Definition CR : ascii := "013"%char.
Definition LPAREN : ascii := "("%char.
Definition RPAREN : ascii := ")"%char.
Definition DQUOTE : ascii := "034"%char.

Definition str1 (c : ascii) : string := String c EmptyString.

(** ** bottle: escaping and the three inline templates

    [{{ x }}] inserts [html_escape(x)], [{{ !x }}] inserts [x] as it is. *)

Module Bottle.

(** [html_escape]: the replacements are chained in this order. *)
Definition html_escape (s : string) : string :=
  PyStr.replace "'" "&#039;"
    (PyStr.replace (str1 DQUOTE) "&quot;"
      (PyStr.replace ">" "&gt;"
        (PyStr.replace "<" "&lt;"
          (PyStr.replace "&" "&amp;" s)))).

(** [template("<a href='{{ url }}'>{{ text }}</a>", url=..., text=...)] *)
Definition link (url text : string) : string :=
  "<a href='" ++ html_escape url ++ "'>" ++ html_escape text ++ "</a>".

(** [template("{{ prefix }}{{ !full_url_link }}({{ !url_link }})\n", ...)] *)
Definition stat_line (prefix full_url_link url_link : string) : string :=
  html_escape prefix ++ full_url_link ++ "(" ++ url_link ++ ")" ++ str1 LF.

End Bottle.

(** ** re: the two searches of the formatter, and [re.escape] *)

Module Re.

(** [re.search(r'ncalls|tottime|cumtime', line)] succeeds when one of the
    three words occurs somewhere in the line. *)
Definition header_line_search (line : string) : bool :=
  PyStr.contains "ncalls" line
  || PyStr.contains "tottime" line
  || PyStr.contains "cumtime" line.

(** The longest prefix of [l] with no character satisfying [stop], and
    what follows it. *)
Fixpoint span_until (stop : ascii -> bool) (l : list ascii)
  : list ascii * list ascii :=
  match l with
  | [] => ([], [])
  | c :: l' =>
      if stop c then ([], l)
      else let (a, b) := span_until stop l' in (c :: a, b)
  end.

Definition is_lf (c : ascii) : bool := Ascii.eqb c LF.
Definition is_lparen_or_lf (c : ascii) : bool :=
  Ascii.eqb c LPAREN || Ascii.eqb c LF.

(** The reversed line without the line feed that may end the line: [$]
    stands at the end of the string or before a line feed that ends it. *)
Definition before_dollar (r : list ascii) : list ascii :=
  match r with
  | c :: r' => if is_lf c then r' else r
  | [] => r
  end.

(** The match read from its end: the closing parenthesis, group 2 up to
    the nearest opening parenthesis, group 1 up to the start of the line. *)
Definition match_reversed (r : list ascii) : option (string * string) :=
  match r with
  | c :: r1 =>
      if Ascii.eqb c RPAREN then
        let (g2, rest) := span_until is_lparen_or_lf r1 in
        match rest with
        | d :: r2 =>
            if Ascii.eqb d LPAREN then
              let (g1, _) := span_until is_lf r2 in
              Some (string_of_list_ascii (rev g1),
                    string_of_list_ascii (rev g2))
            else None
        | [] => None
        end
      else None
  | [] => None
  end.

(** [re.search(cls.STATS_LINE_REGEX, line)], giving the two groups.  The
    pattern is: any characters (group 1), an opening parenthesis, any
    characters (group 2), a closing parenthesis, [$].  [.] matches no line
    feed, so the match ends with the [)] before the place of [$] and lies
    after the last line feed before it.  The search returns the leftmost
    match, which starts right after that line feed; the first group is
    greedy, so it extends to the last [(] before the closing [)]. *)
Definition stats_line_search (line : string) : option (string * string) :=
  match_reversed (before_dollar (rev (list_ascii_of_string line))).

(** [re.escape]: a backslash before each of the characters that mean
    something in a pattern (the table of Python 3.7 and later). *)
Definition special_chars : string :=
  "()[]{}?*+-|^$\.&~# " ++ String "009"%char (String LF (String CR
    (String "011"%char (String "012"%char EmptyString)))).

Fixpoint escape (s : string) : string :=
  match s with
  | EmptyString => EmptyString
  | String c s' =>
      if PyStr.has_char c special_chars
      then String "\"%char (String c (escape s'))
      else String c (escape s')
  end.

End Re.

(** ** [str.splitlines(True)] *)

Definition is_linebreak (c : ascii) : bool :=
  existsb (Ascii.eqb c)
    [LF; CR; "011"%char; "012"%char; "028"%char; "029"%char; "030"%char;
     "133"%char].

(** [acc] is the part of the current line already passed.  A carriage
    return followed by a line feed ends one line, not two. *)
Fixpoint splitlines_acc (acc s : string) : list string :=
  match s with
  | EmptyString =>
      match acc with EmptyString => [] | _ => [acc] end
  | String c s' =>
      if Ascii.eqb c CR then
        match s' with
        | String d s'' =>
            if Ascii.eqb d LF
            then (acc ++ String CR (str1 LF)) :: splitlines_acc EmptyString s''
            else (acc ++ str1 CR) :: splitlines_acc EmptyString s'
        | EmptyString => [acc ++ str1 CR]
        end
      else if is_linebreak c
      then (acc ++ str1 c) :: splitlines_acc EmptyString s'
      else splitlines_acc (acc ++ str1 c) s'
  end.

Definition splitlines_keepends (s : string) : list string :=
  splitlines_acc EmptyString s.

(** ** [Stats.process_line] and the loop of [Stats.read] *)

Module Formatter.

(** The [info] dictionary of one [read]: it holds at most the key
    ['func_col_pos'], the column at which the function signatures start. *)
Definition info := option nat.

(** [func_name not in cls.IGNORE_FUNC_NAMES] *)
Definition ignored (func_name : string) : bool :=
  existsb (String.eqb func_name) Stats.IGNORE_FUNC_NAMES.

(** The body of [for key, val in cls.SORT_ARGS.items()]. *)
Definition sort_link_step (rq : request_query) (line : string)
           (kv : string * string) : string :=
  let url_link :=
    Bottle.link (Stats.get_updated_href rq [(SORT_KEY, Some (snd kv))])
                (fst kv) in
  PyStr.replace (fst kv) url_link line.

(** The first half of [process_line]: header lines. *)
Definition format_header (rq : request_query) (line : string) (i : info)
  : string * info :=
  if Re.header_line_search line then
    let i' := match i with
              | Some p => Some p
              | None => PyStr.find Stats.FUNCTION_SIG_HEADER line
              end in
    (fold_left (sort_link_step rq) Stats.SORT_ARGS line, i')
  else (line, i).

(** The second half of [process_line]: stat lines. *)
Definition format_stat (rq : request_query) (line : string) (i : info)
  : string :=
  match Re.stats_line_search line with
  | Some (prefix, func_name) =>
      if ignored func_name then line
      else
        let '(prefix, full_url_link) :=
          match i with
          | Some func_col_pos =>
              let func_loc := PyStr.drop func_col_pos prefix in
              let prefix := PyStr.take func_col_pos prefix in
              (prefix,
               Bottle.link
                 (Stats.get_updated_href rq
                    [(FUNC_LOC_KEY, Some func_loc);
                     (FUNC_NAME_KEY, Some func_name)])
                 func_loc)
          | None => (prefix, EmptyString)
          end in
        let url_link :=
          Bottle.link
            (Stats.get_updated_href rq
               [(FUNC_LOC_KEY, None); (FUNC_NAME_KEY, Some func_name)])
            func_name in
        Bottle.stat_line prefix full_url_link url_link
  | None => line
  end.

Definition process_line (rq : request_query) (line : string) (i : info)
  : string * info :=
  let (line, i) := format_header rq line i in
  (format_stat rq line i, i).

(** [for i in range(len(lines)): lines[i] = self.process_line(lines[i], info)] *)
Fixpoint process_lines (rq : request_query) (lines : list string) (i : info)
  : list string :=
  match lines with
  | [] => []
  | l :: ls =>
      let (l', i') := process_line rq l i in
      l' :: process_lines rq ls i'
  end.

(** The [info] dictionary once the loop has passed [lines]. *)
Fixpoint info_after (rq : request_query) (lines : list string) (i : info)
  : info :=
  match lines with
  | [] => i
  | l :: ls => info_after rq ls (snd (process_line rq l i))
  end.

(** What [read] does with the text taken from the stream. *)
Definition format_report (rq : request_query) (output : string) : string :=
  PyStr.join_empty (process_lines rq (splitlines_keepends output) None).

End Formatter.

(** ** Exceptions *)

Inductive exn : Type :=
| KeyError (key : string)
| LoadError.

Inductive result (A : Type) : Type :=
| Ok (a : A)
| Raise (e : exn).
Arguments Ok {A} a.
Arguments Raise {A} e.

Definition bind {A B : Type} (r : result A) (f : A -> result B) : result B :=
  match r with
  | Ok a => f a
  | Raise e => Raise e
  end.

Notation "x <- c ;; k" := (bind c (fun x => k))
  (at level 61, c at next level, right associativity).

(** ** The output stream ([StringIO]) *)

Module StringIO.

Record t := mk { value : string; pos : nat }.

Definition new : t := mk EmptyString 0.

Fixpoint nuls (n : nat) : string :=
  match n with
  | O => EmptyString
  | S n' => String "000"%char (nuls n')
  end.

(** [write(s)]: the text goes at the position, over what is there, after
    padding when the position is past the end; the position moves on. *)
Definition write (s : string) (io : t) : t :=
  let padded := value io ++ nuls (pos io - String.length (value io)) in
  mk (PyStr.take (pos io) padded ++ s
        ++ PyStr.drop (pos io + String.length s) padded)
     (pos io + String.length s).

Definition getvalue (io : t) : string := value io.

Definition seek (n : nat) (io : t) : t := mk (value io) n.

(** [truncate()] cuts the contents at the position. *)
Definition truncate (io : t) : t :=
  mk (PyStr.take (pos io) (value io)) (pos io).

End StringIO.

(** ** The aggregation library ([pstats])

    The library is outside the repository; the session uses it through this
    interface.  [load] is [pstats.Stats(profile, stream=...)]: the
    statistics object is built from the data source as it is at that moment
    ([load_stats] copies the records out of the profiler or reads the
    file).  The three printing methods give the text they write to the
    stream. *)

Class AggregationLibrary : Type := {
  source : Type;
  pstats : Type;
  load : source -> result pstats;
  sort_stats : string -> pstats -> result pstats;
  print_stats : list string -> pstats -> string;
  print_callers : list string -> pstats -> string;
  print_callees : list string -> pstats -> string
}.

(** ** The session ([class Stats]) and the controller ([class CProfileV]) *)

(** The report handed to the page template. *)
Record page_data := {
  page_title : string;
  page_stats : string;
  page_callers : string;
  page_callees : string;
  page_restrictions : list string
}.

(** [x or ''] *)
Definition or_empty (x : option string) : string :=
  match x with Some s => s | None => EmptyString end.

(** The truth value of a [str]. *)
Definition truthy (s : string) : bool := negb (String.eqb s EmptyString).

(** [a or b] for two [str] values. *)
Definition str_or (a b : string) : string := if truthy a then a else b.

Section Session.

Context {lib : AggregationLibrary}.

(** A [Stats] object.  [self.profile] is a reference to the data source,
    which lives outside the object (see [world] below). *)
Record session := {
  stream : StringIO.t;
  stats : pstats
}.

(** [Stats.__init__] *)
Definition init (profile : source) : result session :=
  st <- load profile ;;
  Ok {| stream := StringIO.new; stats := st |}.

(** [Stats.read_stream] *)
Definition read_stream (s : session) : string * session :=
  let value := StringIO.getvalue (stream s) in
  let io := StringIO.seek 0 (stream s) in
  let io := StringIO.truncate io in
  (value, {| stream := io; stats := stats s |}).

(** [Stats.read] *)
Definition read (rq : request_query) (s : session) : string * session :=
  let (output, s) := read_stream s in
  (Formatter.format_report rq output, s).

(** [Stats.show], [Stats.show_callers], [Stats.show_callees] *)
Definition show (restrictions : list string) (s : session) : session :=
  {| stream := StringIO.write (print_stats restrictions (stats s)) (stream s);
     stats := stats s |}.

Definition show_callers (restriction : list string) (s : session) : session :=
  {| stream := StringIO.write (print_callers restriction (stats s)) (stream s);
     stats := stats s |}.

Definition show_callees (restriction : list string) (s : session) : session :=
  {| stream := StringIO.write (print_callees restriction (stats s)) (stream s);
     stats := stats s |}.

(** [Stats.sort] *)
Definition sort (sort : string) (s : session) : result session :=
  let sort := str_or sort Stats.DEFAULT_SORT_ARG in
  st <- sort_stats sort (stats s) ;;
  Ok {| stream := stream s; stats := st |}.

(** A call of one of the three printing methods, and a sequence of such
    calls on one session. *)
Inductive print_call : Type :=
| Show (restrictions : list string)
| ShowCallers (restriction : list string)
| ShowCallees (restriction : list string).

Definition run_call (s : session) (c : print_call) : session :=
  match c with
  | Show r => show r s
  | ShowCallers r => show_callers r s
  | ShowCallees r => show_callees r s
  end.

Definition run_calls (cs : list print_call) (s : session) : session :=
  fold_left run_call cs s.

(** The text the library prints for a call. *)
Definition call_text (st : pstats) (c : print_call) : string :=
  match c with
  | Show r => print_stats r st
  | ShowCallers r => print_callers r st
  | ShowCallees r => print_callees r st
  end.

Definition calls_text (cs : list print_call) (st : pstats) : string :=
  PyStr.join_empty (map (call_text st) cs).

(** The restrictions built by [route_handler]. *)
Definition build_restrictions (func_name func_loc : string) : list string :=
  let restrictions : list string := [] in
  let restrictions :=
    if truthy func_name
    then app restrictions ["\(" ++ Re.escape func_name ++ "\)"]
    else restrictions in
  let restrictions :=
    if truthy func_loc
    then app restrictions ["^" ++ Re.escape func_loc]
    else restrictions in
  restrictions.

(** [CProfileV.route_handler], up to the [data] given to the page
    template.  [profile] is the data source as it is when the request
    arrives. *)
Definition route_handler (profile : source) (title : string)
           (rq : request_query) : result page_data :=
  s <- init profile ;;
  let func_name := or_empty (query_get FUNC_NAME_KEY rq) in
  let func_loc := or_empty (query_get FUNC_LOC_KEY rq) in
  let sort_arg := or_empty (query_get SORT_KEY rq) in
  let restrictions := build_restrictions func_name func_loc in
  s <- sort sort_arg s ;;
  let (callers, s) :=
    if truthy func_name then read rq (show_callers restrictions s)
    else (EmptyString, s) in
  let (callees, s) :=
    if truthy func_name then read rq (show_callees restrictions s)
    else (EmptyString, s) in
  s <- sort sort_arg s ;;
  let (stats_text, s) := read rq (show restrictions s) in
  Ok {| page_title := title;
        page_stats := stats_text;
        page_callers := callers;
        page_callees := callees;
        page_restrictions := restrictions |}.

(** The data source is shared with the profiled program, which keeps
    adding to it; a session lives next to it. *)
Record world := {
  profile_now : source;
  current : session
}.

(** The profiled program advances. *)
Definition advance (p : source) (w : world) : world :=
  {| profile_now := p; current := current w |}.

(** One render in the current session: [show] with the restrictions,
    then [read]. *)
Definition render (rq : request_query) (restrictions : list string)
           (w : world) : string * world :=
  let (text, s) := read rq (show restrictions (current w)) in
  (text, {| profile_now := profile_now w; current := s |}).

(** A new session over the data source as it is now. *)
Definition open_session (w : world) : result world :=
  s <- init (profile_now w) ;;
  Ok {| profile_now := profile_now w; current := s |}.

End Session.

(** ** Reading a formatted line back

    What the properties of the formatter are stated with: the hyperlinks of
    a fragment and the text a browser shows for it. *)

Module Html.

(** The number of anchor tags opened in [s]. *)
Fixpoint count_links (s : string) : nat :=
  match s with
  | EmptyString => 0
  | String _ s' =>
      (if PyStr.startswith "<a " s then 1 else 0) + count_links s'
  end.

(** The text outside the tags; [in_tag] tells whether a tag is open. *)
Fixpoint strip_tags (in_tag : bool) (s : string) : string :=
  match s with
  | EmptyString => EmptyString
  | String c s' =>
      if in_tag then strip_tags (negb (Ascii.eqb c ">"%char)) s'
      else if Ascii.eqb c "<"%char then strip_tags true s'
      else String c (strip_tags false s')
  end.

(** The character an entity stands for, and the length of the entity. *)
Definition entity_at (s : string) : option (ascii * nat) :=
  if PyStr.startswith "&amp;" s then Some ("&"%char, 5)
  else if PyStr.startswith "&lt;" s then Some ("<"%char, 4)
  else if PyStr.startswith "&gt;" s then Some (">"%char, 4)
  else if PyStr.startswith "&quot;" s then Some (DQUOTE, 6)
  else if PyStr.startswith "&#039;" s then Some ("'"%char, 6)
  else None.

(** The five entities read back; [skip] counts the characters of the
    entity being read that remain to be passed. *)
Fixpoint decode (skip : nat) (s : string) : string :=
  match s with
  | EmptyString => EmptyString
  | String c s' =>
      match skip with
      | S k => decode k s'
      | O =>
          match entity_at s with
          | Some (ch, n) => String ch (decode (n - 1) s')
          | None => String c (decode 0 s')
          end
      end
  end.

Definition visible_text (s : string) : string :=
  decode 0 (strip_tags false s).

End Html.

(** ** The patterns the controller builds, read as [re] reads them

    The fragment of the pattern language that the restrictions use: a
    backslash before a character that is no letter, digit or underscore
    stands for that character, [^] for the start of the text, and a
    character with no meaning in a pattern for itself.  Anything else is
    outside the fragment. *)

Module Pattern.

Inductive atom : Type :=
| Lit (c : ascii)
| Bol.

Definition metachars : string := ".^$*+?{}[]|()\".

Definition is_word_char (c : ascii) : bool :=
  let n := nat_of_ascii c in
  (Nat.leb 48 n && Nat.leb n 57) || (Nat.leb 65 n && Nat.leb n 90)
  || (Nat.leb 97 n && Nat.leb n 122) || Nat.eqb n 95.

(** [pending] tells that the previous character was a backslash. *)
Fixpoint parse_from (pending : bool) (s : string) : option (list atom) :=
  match s with
  | EmptyString => if pending then None else Some []
  | String c s' =>
      if pending then
        if is_word_char c then None
        else option_map (cons (Lit c)) (parse_from false s')
      else if Ascii.eqb c "\"%char then parse_from true s'
      else if Ascii.eqb c "^"%char
      then option_map (cons Bol) (parse_from false s')
      else if PyStr.has_char c metachars then None
      else option_map (cons (Lit c)) (parse_from false s')
  end.

Definition parse (s : string) : option (list atom) := parse_from false s.

(** The atoms match at the head of [s]; [at_start] tells whether the head
    of [s] is the start of the whole text. *)
Fixpoint match_here (p : list atom) (at_start : bool) (s : string) : bool :=
  match p with
  | [] => true
  | Bol :: p' => at_start && match_here p' at_start s
  | Lit c :: p' =>
      match s with
      | String d s' => Ascii.eqb c d && match_here p' false s'
      | EmptyString => false
      end
  end.

Fixpoint search_from (p : list atom) (at_start : bool) (s : string) : bool :=
  match_here p at_start s
  || match s with
     | String _ s' => search_from p false s'
     | EmptyString => false
     end.

(** [re.compile(pattern).search(s)] succeeds. *)
Definition search (p : list atom) (s : string) : bool := search_from p true s.


End Pattern.

(** ** A report as the library prints it *)

Module Sample.

Definition header_line : string :=
  "   ncalls  tottime  percall  cumtime  percall filename:lineno(function)"
  ++ str1 LF.

Definition stat_body : string :=
  "        1    0.000    0.000    0.000    0.000 mod.py:10(foo)".

Definition stat_line : string := stat_body ++ str1 LF.

(** The header line and one stat line. *)
Definition report : string := header_line ++ stat_line.

(** A line of a callers report, which has no signature header. *)
Definition callers_line : string := "mod.py:10(foo)" ++ str1 LF.

(** The report when its last line is not ended by a line feed. *)
Definition unfinished_report : string := header_line ++ stat_body.

(** A line with an empty name between the parentheses. *)
Definition noise_line : string := "        1    0.000 mod.py:10()" ++ str1 LF.

(** A line of a callers report for a function whose name holds a header
    word. *)
Definition getter_line : string := "mod.py:10(get_ncalls)" ++ str1 LF.

(** A stat line for a function called [function], in a file whose name
    holds a header word; and a report with it. *)
Definition sentinel_line : string :=
  "        1    0.000    0.000    0.000    0.000 ncalls.py:10(function)"
  ++ str1 LF.

Definition sentinel_report : string := header_line ++ sentinel_line.

End Sample.

(** ** A small aggregation library

    An instance of the interface on which the session and the controller
    can be run: the records are call counts per function, the sort keys are
    the words of the library's own table, and a report is the header line
    and one line per record that matches every restriction. *)

Module SmallLibrary.

Record entry := {
  e_location : string;
  e_name : string;
  e_ncalls : string
}.

Record stats_obj := {
  entries : list entry;
  sort_type : string
}.

Definition sort_words : list string :=
  ["calls"; "ncalls"; "cumtime"; "cumulative"; "file"; "filename"; "line";
   "module"; "name"; "nfl"; "pcalls"; "stdname"; "time"; "tottime"].

Definition signature (e : entry) : string :=
  e_location e ++ "(" ++ e_name e ++ ")".

Definition selected (restrictions : list string) (e : entry) : bool :=
  forallb (fun r => match Pattern.parse r with
                    | Some p => Pattern.search p (signature e)
                    | None => false
                    end) restrictions.

Definition header : string :=
  "   ncalls filename:lineno(function)" ++ str1 LF.

Fixpoint spaces (n : nat) : string :=
  match n with
  | O => EmptyString
  | S n' => String " "%char (spaces n')
  end.

(** The count is set to the right in the nine columns of its field. *)
Definition line_of (e : entry) : string :=
  spaces (9 - String.length (e_ncalls e)) ++ e_ncalls e ++ " "
  ++ signature e ++ str1 LF.

Definition report (restrictions : list string) (p : stats_obj) : string :=
  header
  ++ PyStr.join_empty (map line_of (filter (selected restrictions) (entries p))).

Definition sort_by (key : string) (p : stats_obj) : result stats_obj :=
  if existsb (String.eqb key) sort_words
  then Ok {| entries := entries p; sort_type := key |}
  else Raise (KeyError key).

#[export] Instance library : AggregationLibrary := {
  source := list entry;
  pstats := stats_obj;
  load := fun src => Ok {| entries := src; sort_type := EmptyString |};
  sort_stats := sort_by;
  print_stats := report;
  print_callers := fun _ _ => EmptyString;
  print_callees := fun _ _ => EmptyString
}.

Definition one_call : list entry :=
  [{| e_location := "mod.py:10"; e_name := "foo"; e_ncalls := "1" |}].

Definition two_calls : list entry :=
  [{| e_location := "mod.py:10"; e_name := "foo"; e_ncalls := "2" |}].

(** The statistics object built from a data source. *)
Definition loaded (src : list entry) : stats_obj :=
  {| entries := src; sort_type := EmptyString |}.

(** The program has made one call and no session is open yet: the world
    at the first request, and the world once its session is open. *)
Definition at_first_request : world :=
  {| profile_now := one_call;
     current := {| stream := StringIO.new; stats := loaded [] |} |}.

Definition opened : world :=
  {| profile_now := one_call;
     current := {| stream := StringIO.new; stats := loaded one_call |} |}.


End SmallLibrary.

(** ** More sample texts *)

Module Preamble.

(** What the library prints before the table. *)
Definition text : string :=
  "         3 function calls in 0.000 seconds" ++ str1 LF
  ++ str1 LF
  ++ "   Ordered by: cumulative time" ++ str1 LF
  ++ str1 LF.

End Preamble.

(** ** Marked-up text

    A line with tags in it, read as the texts between the tags and the
    tags themselves: [Tagged t m r] stands for [t], then the tag [<m>],
    then [r].  The header half of [process_line] is followed on this
    reading. *)

Module Markup.

Inductive marked : Type :=
| Tail (text : string)
| Tagged (text tag : string) (rest : marked).

(** The line as a string. *)
Fixpoint render (x : marked) : string :=
  match x with
  | Tail t => t
  | Tagged t m r => t ++ "<" ++ m ++ ">" ++ render r
  end.

(** The texts between the tags, end to end. *)
Fixpoint text_of (x : marked) : string :=
  match x with
  | Tail t => t
  | Tagged t _ r => t ++ text_of r
  end.

Fixpoint tags (x : marked) : list string :=
  match x with
  | Tail _ => []
  | Tagged _ m r => m :: tags r
  end.

(** [t] put before [x]. *)
Definition prepend (t : string) (x : marked) : marked :=
  match x with
  | Tail t' => Tail (t ++ t')
  | Tagged t' m r => Tagged (t ++ t') m r
  end.

(** [a] followed by [b]. *)
Fixpoint join (a b : marked) : marked :=
  match a with
  | Tail t => prepend t b
  | Tagged t m r => Tagged t m (join r b)
  end.

(** The opening tag of the link that [Bottle.link] builds. *)
Definition anchor (url : string) : string :=
  "a href='" ++ Bottle.html_escape url ++ "'".

(** [Bottle.link url text], followed by [rest]. *)
Definition link (url text : string) (rest : marked) : marked :=
  Tagged EmptyString (anchor url)
         (Tagged (Bottle.html_escape text) "/a" rest).

(** [s.replace(key, link)] on a text with no tag in it, with the same
    recursion as [PyStr.replace_from]. *)
Fixpoint mark_from (skip : nat) (key url s : string) : marked :=
  match s with
  | EmptyString => Tail EmptyString
  | String c s' =>
      match skip with
      | S k => mark_from k key url s'
      | O => if PyStr.startswith key s
             then link url key (mark_from (String.length key - 1) key url s')
             else prepend (str1 c) (mark_from 0 key url s')
      end
  end.

(** The replacement in each text between the tags. *)
Fixpoint replace_in (key url : string) (x : marked) : marked :=
  match x with
  | Tail t => mark_from 0 key url t
  | Tagged t m r =>
      join (mark_from 0 key url t)
           (Tagged EmptyString m (replace_in key url r))
  end.

(** A header word as the replacement needs it: not empty, with no angle
    bracket in it, and left as it is by the escaping. *)
Definition word_ok (key : string) : bool :=
  negb (String.eqb key EmptyString)
  && negb (PyStr.has_char "<"%char key)
  && negb (PyStr.has_char ">"%char key)
  && String.eqb (Bottle.html_escape key) key.

(** No header word of [keys] occurs in the tag. *)
Definition free_of (keys : list string) (tag : string) : bool :=
  forallb (fun k => negb (PyStr.contains k tag)) keys.

End Markup.

(** ** The sort links of a request *)

Module SortLinks.

(** The target of the sort link for the sort word [val]. *)
Definition url (rq : request_query) (val : string) : string :=
  Stats.get_updated_href rq [(SORT_KEY, Some val)].

(** No header word occurs in a sort link of the request, the text of the
    link left out. *)
Definition clean (rq : request_query) : bool :=
  forallb
    (fun target =>
       forallb
         (fun word =>
            negb (PyStr.contains (fst word)
                    (Bottle.link (url rq (snd target)) EmptyString)))
         Stats.SORT_ARGS)
    Stats.SORT_ARGS.

(** The replacements of the header half, on the marked-up line. *)
Definition mark_all (rq : request_query) (kvs : list (string * string))
           (x : Markup.marked) : Markup.marked :=
  fold_left (fun x kv => Markup.replace_in (fst kv) (url rq (snd kv)) x) kvs x.

End SortLinks.

(** ** The page ([STATS_TEMPLATE])

    The page template as bottle renders it: a line that starts with [%]
    is code and leaves no text, the other lines are text with their
    indentation; [{{ title }}] is escaped and the other values, written
    with [!], are put in as they are. *)

Module Page.

Definition line (s : string) : string := s ++ str1 LF.

(** The body of [% for r in restrictions:]. *)
Definition item (r : string) : string :=
  line ("                " ++ "<li><pre>" ++ r ++ "</pre></li>").

Definition render (d : page_data) : string :=
  line "<html>"
  ++ line "    <head>"
  ++ line ("        " ++ "<title>" ++ Bottle.html_escape (page_title d)
           ++ " | cProfile Results</title>")
  ++ line "    </head>"
  ++ line "    <body>"
  ++ line ("        <pre>" ++ page_stats d ++ "</pre>")
  ++ line EmptyString
  ++ (if truthy (page_callers d)
      then line "            <h2>Called By:</h2>"
           ++ line ("            <pre>" ++ page_callers d ++ "</pre>")
      else EmptyString)
  ++ line EmptyString
  ++ (if truthy (page_callees d)
      then line "            <h2>Called:</h2>"
           ++ line ("            <pre>" ++ page_callees d ++ "</pre>")
      else EmptyString)
  ++ line EmptyString
  ++ line "        <h3>Restrictions applied to get stats listed above:</h3>"
  ++ (match page_restrictions d with
      | [] => line "            None"
      | rs => line "            <ul>"
              ++ PyStr.join_empty (map item rs)
              ++ line "            </ul>"
      end)
  ++ line "    </body>"
  ++ "</html>".

End Page.

(** [CProfileV.route_handler] with its last step,
    [bottle.template(STATS_TEMPLATE, **data)]. *)
Definition route_handler_page {lib : AggregationLibrary}
           (profile : source) (title : string) (rq : request_query)
  : result string :=
  d <- route_handler profile title rq ;;
  Ok (Page.render d).

(** No character of [s] is one that [re.escape] escapes. *)
Definition no_special (s : string) : bool :=
  forallb (fun c => negb (PyStr.has_char c Re.special_chars))
          (list_ascii_of_string s).

(** ** A short stat line

    A line after the header that ends before the column of the
    signatures. *)

Module ShortLine.

Definition text : string := "totals(all)" ++ str1 LF.

End ShortLine.

(** * Properties *)

(** ** Strings *)

Section StringFacts.

Lemma append_nil_r (s : string) : s ++ EmptyString = s.
Proof. induction s as [|c s IH]; simpl; [reflexivity | now rewrite IH]. Qed.

Lemma append_assoc (a b c : string) : (a ++ b) ++ c = a ++ b ++ c.
Proof. induction a as [|x a IH]; simpl; [reflexivity | now rewrite IH]. Qed.

Lemma length_append (a b : string) :
  String.length (a ++ b) = String.length a + String.length b.
Proof. induction a as [|x a IH]; simpl; [reflexivity | now rewrite IH]. Qed.

Lemma take_drop (n : nat) (s : string) : PyStr.take n s ++ PyStr.drop n s = s.
Proof.
  revert s; induction n as [|n IH]; intros [|c s]; simpl; try reflexivity.
  now rewrite IH.
Qed.

Lemma take_length_append (a b : string) :
  PyStr.take (String.length a) (a ++ b) = a.
Proof. induction a as [|x a IH]; simpl; [now destruct b | now rewrite IH]. Qed.

Lemma drop_length_append (a b : string) :
  PyStr.drop (String.length a) (a ++ b) = b.
Proof. induction a as [|x a IH]; simpl; [reflexivity | exact IH]. Qed.

Lemma drop_all (s : string) : PyStr.drop (String.length s) s = EmptyString.
Proof. induction s as [|c s IH]; simpl; [reflexivity | exact IH]. Qed.

Lemma drop_beyond (n : nat) (s : string) :
  String.length s <= n -> PyStr.drop n s = EmptyString.
Proof.
  revert s; induction n as [|n IH]; intros [|c s]; simpl; intros H;
    try reflexivity; try lia.
  apply IH. lia.
Qed.

Lemma chop_last_snoc (s : string) (c : ascii) :
  PyStr.chop_last (s ++ str1 c) = s.
Proof.
  unfold PyStr.chop_last. rewrite length_append. simpl.
  replace (String.length s + 1 - 1) with (String.length s) by lia.
  apply take_length_append.
Qed.

End StringFacts.

(** ** Dictionaries *)

Section DictFacts.

Lemma has_key_In (k : string) (d : dict) :
  LinkRule.has_key k d = true <-> In k (dict_keys d).
Proof.
  unfold LinkRule.has_key. rewrite existsb_exists. split.
  - intros (x & Hx & E). apply String.eqb_eq in E. now subst.
  - intros H. exists k. split; [exact H | apply String.eqb_refl].
Qed.

Lemma has_key_false (k : string) (d : dict) :
  LinkRule.has_key k d = false <-> ~ In k (dict_keys d).
Proof.
  rewrite <- has_key_In. destruct (LinkRule.has_key k d); split; intros H;
    try reflexivity; try discriminate; try (intros E; discriminate).
  now elim H.
Qed.

Lemma setitem_new (k : string) (v : pyval) (d : dict) :
  ~ In k (dict_keys d) -> dict_setitem k v d = (d ++ [(k, v)])%list.
Proof.
  induction d as [|[k' v'] d IH]; simpl; intros H; [reflexivity|].
  destruct (String.eqb_spec k k') as [E|E].
  - elim H. now left.
  - rewrite IH; [reflexivity | tauto].
Qed.

Lemma setitem_keys_old (k : string) (v : pyval) (d : dict) :
  In k (dict_keys d) -> dict_keys (dict_setitem k v d) = dict_keys d.
Proof.
  induction d as [|[k' v'] d IH]; simpl; intros H; [easy|].
  destruct (String.eqb_spec k k') as [E|E]; simpl; [reflexivity|].
  f_equal. apply IH. destruct H as [H|H]; [now elim E | exact H].
Qed.

Lemma setitem_NoDup (k : string) (v : pyval) (d : dict) :
  NoDup (dict_keys d) -> NoDup (dict_keys (dict_setitem k v d)).
Proof.
  intros H. destruct (in_dec string_dec k (dict_keys d)) as [I|I].
  - now rewrite setitem_keys_old.
  - rewrite setitem_new by exact I. unfold dict_keys. rewrite map_app. simpl.
    apply NoDup_app; [exact H | repeat constructor; easy |].
    intros x Hx [<-|[]]. exact (I Hx).
Qed.

Lemma assign_all_NoDup (keyvals d : dict) :
  NoDup (dict_keys d) -> NoDup (dict_keys (dict_assign_all keyvals d)).
Proof.
  unfold dict_assign_all. revert d.
  induction keyvals as [|[k v] kvs IH]; simpl; intros d H; [exact H|].
  apply IH, setitem_NoDup, H.
Qed.

Lemma dict_of_query_NoDup (rq : request_query) :
  NoDup (dict_keys (dict_of_query rq)).
Proof.
  unfold dict_of_query.
  assert (G : forall d, NoDup (dict_keys d) ->
    NoDup (dict_keys
      (fold_left (fun d kv => dict_setitem (fst kv) (Some (snd kv)) d) rq d))).
  { induction rq as [|[k v] rq IH]; simpl; intros d H; [exact H|].
    apply IH, setitem_NoDup, H. }
  apply G. constructor.
Qed.

Lemma getitem_In (k : string) (w : pyval) (d : dict) :
  dict_getitem k d = Some w -> In (k, w) d.
Proof.
  induction d as [|[k' v'] d IH]; simpl; [discriminate|].
  destruct (String.eqb_spec k k') as [E|E].
  - intros [= <-]. left. now subst.
  - intros H. right. now apply IH.
Qed.

Lemma In_getitem (k : string) (w : pyval) (d : dict) :
  NoDup (dict_keys d) -> In (k, w) d -> dict_getitem k d = Some w.
Proof.
  induction d as [|[k' v'] d IH]; simpl; [easy|].
  intros N [H|H].
  - injection H as -> ->. now rewrite String.eqb_refl.
  - inversion N as [|? ? Hn N']; subst.
    destruct (String.eqb_spec k k') as [E|E].
    + subst. elim Hn. change k' with (fst (k', w)). now apply in_map.
    + now apply IH.
Qed.

Lemma getitem_None (k : string) (d : dict) :
  dict_getitem k d = None <-> ~ In k (dict_keys d).
Proof.
  induction d as [|[k' v'] d IH]; simpl; [tauto|].
  destruct (String.eqb_spec k k') as [E|E].
  - split; [discriminate | intros H; elim H; now left].
  - rewrite IH. split; [intros H [G|G]; [now elim E | tauto] | tauto].
Qed.

Lemma getitem_setitem_same (k : string) (v : pyval) (d : dict) :
  dict_getitem k (dict_setitem k v d) = Some v.
Proof.
  induction d as [|[k' v'] d IH]; simpl.
  - now rewrite String.eqb_refl.
  - destruct (String.eqb_spec k k') as [E|E]; simpl.
    + subst. now rewrite String.eqb_refl.
    + destruct (String.eqb_spec k k'); [easy | exact IH].
Qed.

Lemma getitem_setitem_other (j k : string) (v : pyval) (d : dict) :
  j <> k -> dict_getitem j (dict_setitem k v d) = dict_getitem j d.
Proof.
  intros D. induction d as [|[k' v'] d IH]; simpl.
  - destruct (String.eqb_spec j k); [easy | reflexivity].
  - destruct (String.eqb_spec k k') as [E|E]; simpl.
    + subst. destruct (String.eqb_spec j k'); [easy | reflexivity].
    + destruct (String.eqb_spec j k'); [reflexivity | exact IH].
Qed.

(** After the assignments, each assigned key holds its assigned value. *)
Lemma getitem_assign_all (keyvals d : dict) (k : string) (v : pyval) :
  NoDup (dict_keys keyvals) -> In (k, v) keyvals ->
  dict_getitem k (dict_assign_all keyvals d) = Some v.
Proof.
  unfold dict_assign_all. revert d.
  induction keyvals as [|[k' v'] kvs IH]; simpl; intros d N H; [easy|].
  inversion N as [|? ? Hn N']; subst.
  destruct H as [H|H].
  - injection H as -> ->.
    assert (G : forall d0, dict_getitem k d0 = Some v ->
      dict_getitem k
        (fold_left (fun q kv => dict_setitem (fst kv) (snd kv) q) kvs d0)
      = Some v).
    { clear IH N N'. induction kvs as [|[j w] kvs IH]; simpl; intros d0 G;
        [exact G|].
      apply IH.
      - intros I. apply Hn. now right.
      - rewrite getitem_setitem_other; [exact G|].
        intros ->. apply Hn. now left. }
    apply G, getitem_setitem_same.
  - now apply IH.
Qed.

Lemma setitem_same_entry (k : string) (v : pyval) (d : dict) :
  NoDup (dict_keys d) -> In (k, v) d -> dict_setitem k v d = d.
Proof.
  induction d as [|[k' v'] d IH]; simpl; [easy|].
  intros N [H|H].
  - injection H as -> ->. now rewrite String.eqb_refl.
  - inversion N as [|? ? Hn N']; subst.
    destruct (String.eqb_spec k k') as [E|E].
    + subst. elim Hn. change k' with (fst (k', v)). now apply in_map.
    + now rewrite IH.
Qed.

Lemma present_app (a b : dict) :
  LinkRule.present (a ++ b)%list
  = (LinkRule.present a ++ LinkRule.present b)%list.
Proof.
  induction a as [|[k [v|]] a IH]; simpl; [reflexivity | now rewrite IH | exact IH].
Qed.

Lemma present_In (k x : string) (d : dict) :
  In (k, x) (LinkRule.present d) <-> In (k, Some x) d.
Proof.
  induction d as [|[k' [v|]] d IH]; simpl; [tauto | |].
  - rewrite IH. split; (intros [H|H]; [left | now right]).
    + now injection H as -> ->.
    + now injection H as -> ->.
  - rewrite IH. split; [now right | intros [H|H]; [discriminate | exact H]].
Qed.

Lemma present_keys_NoDup (d : dict) :
  NoDup (dict_keys d) -> NoDup (map fst (LinkRule.present d)).
Proof.
  induction d as [|[k [v|]] d IH]; simpl; intros N;
    inversion N as [|? ? Hn N']; subst; [constructor | | now apply IH].
  constructor; [|now apply IH].
  intros I. apply Hn. apply in_map_iff in I as ([k' x] & E & I). simpl in E.
  subst. apply present_In in I. change k with (fst (k, Some x)).
  now apply in_map.
Qed.

Lemma query_get_absent (k : string) (q : request_query) :
  (forall x, ~ In (k, x) q) -> query_get k q = None.
Proof.
  induction q as [|[j v] q IH]; intros H; simpl; [reflexivity|].
  rewrite IH by (intros x Hx; apply (H x); now right).
  destruct (String.eqb_spec k j) as [->|]; [|reflexivity].
  elim (H v). now left.
Qed.

End DictFacts.

(** ** The link target *)

Section LinkTarget.

Lemma serialize_entries (d : dict) :
  NoDup (dict_keys d) ->
  forall (part : dict) (href : string),
    incl part d ->
    fold_left (Stats.href_step d) (dict_keys part) href
    = href ++ LinkRule.pairs_text (LinkRule.present part).
Proof.
  intros N part. induction part as [|[k v] part IH]; simpl; intros href I.
  - now rewrite append_nil_r.
  - assert (G : dict_getitem k d = Some v).
    { apply In_getitem; [exact N | apply I; now left]. }
    rewrite IH by (intros x Hx; apply I; now right).
    unfold Stats.href_step at 1. rewrite G.
    destruct v as [v|]; [|reflexivity].
    unfold LinkRule.pairs_text. simpl. now rewrite !append_assoc.
Qed.

Lemma pairs_text_join (kv : string * string) (l : list (string * string)) :
  LinkRule.pairs_text (kv :: l)
  = String.concat "&" (map LinkRule.pair_text (kv :: l)) ++ "&".
Proof.
  revert kv. induction l as [|kv' l IH]; intros kv.
  - unfold LinkRule.pairs_text, LinkRule.pair_text. simpl.
    now rewrite !append_assoc, append_nil_r.
  - change (LinkRule.pairs_text (kv :: kv' :: l))
      with ((fst kv ++ "=" ++ snd kv ++ "&") ++ LinkRule.pairs_text (kv' :: l)).
    rewrite IH.
    change (String.concat "&" (map LinkRule.pair_text (kv :: kv' :: l)))
      with (LinkRule.pair_text kv ++ "&"
            ++ String.concat "&" (map LinkRule.pair_text (kv' :: l))).
    unfold LinkRule.pair_text at 2. now rewrite !append_assoc.
Qed.

Lemma chop_serialized (l : list (string * string)) :
  PyStr.chop_last ("?" ++ LinkRule.pairs_text l) = LinkRule.query_string l.
Proof.
  destruct l as [|kv l]; [reflexivity|].
  rewrite pairs_text_join. unfold LinkRule.query_string.
  rewrite <- append_assoc. apply (chop_last_snoc _ "&"%char).
Qed.

(** The link target is the serialization of the entries of the query
    dictionary that hold a string. *)
Lemma href_of_assigned (rq : request_query) (keyvals : dict) :
  Stats.get_updated_href rq keyvals
  = LinkRule.query_string
      (LinkRule.present (dict_assign_all keyvals (dict_of_query rq))).
Proof.
  unfold Stats.get_updated_href.
  rewrite serialize_entries.
  - apply chop_serialized.
  - apply assign_all_NoDup, dict_of_query_NoDup.
  - apply incl_refl.
Qed.

Lemma setitem_old_laid (k : string) (v : pyval) (d : dict) :
  NoDup (dict_keys d) -> In k (dict_keys d) ->
  dict_setitem k v d
  = map (fun kv => if String.eqb k (fst kv) then (fst kv, v) else kv) d.
Proof.
  induction d as [|[k' v'] d IH]; simpl; intros N H; [easy|].
  inversion N as [|? ? Hn N']; subst.
  destruct (String.eqb_spec k k') as [E|E].
  - subst. simpl. rewrite ?String.eqb_refl. f_equal.
    transitivity (map (fun kv : string * pyval => kv) d);
      [symmetry; apply map_id|].
    apply map_ext_in. intros [j w] I. simpl.
    destruct (String.eqb_spec k' j) as [E|E]; [|reflexivity].
    subst. elim Hn. change j with (fst (j, w)). now apply in_map.
  - f_equal. apply IH; [exact N'|]. destruct H as [H|H]; [now elim E | exact H].
Qed.

(** Assigning the changed keys one by one is the overlay. *)
Lemma assign_all_overlay (changed current : dict) :
  NoDup (dict_keys changed) -> NoDup (dict_keys current) ->
  dict_assign_all changed current
  = (map (LinkRule.laid changed) current ++ filter (LinkRule.fresh_for current) changed)%list.
Proof.
  unfold dict_assign_all. revert current.
  induction changed as [|[k v] changed IH]; simpl; intros current Nc N.
  - rewrite app_nil_r. rewrite <- (map_id current) at 1.
    apply map_ext. now intros [j w].
  - inversion Nc as [|? ? Hn Nc']; subst.
    rewrite IH by (try exact Nc'; apply setitem_NoDup, N).
    assert (Gk : dict_getitem k changed = None) by now apply getitem_None.
    destruct (in_dec string_dec k (dict_keys current)) as [I|I].
    + assert (F : LinkRule.fresh_for current (k, v) = false).
      { unfold LinkRule.fresh_for. simpl. apply has_key_In in I. now rewrite I. }
      rewrite F. f_equal.
      * rewrite setitem_old_laid by assumption. rewrite map_map.
        apply map_ext. intros [j w]. unfold LinkRule.laid. simpl.
        rewrite (String.eqb_sym j k).
        destruct (String.eqb_spec k j) as [E|E]; simpl; [|reflexivity].
        subst. now rewrite Gk.
      * apply filter_ext. intros [j w]. unfold LinkRule.fresh_for, LinkRule.has_key.
        simpl. now rewrite setitem_keys_old.
    + assert (F : LinkRule.fresh_for current (k, v) = true).
      { unfold LinkRule.fresh_for. simpl. apply has_key_false in I. now rewrite I. }
      rewrite F, setitem_new by exact I.
      rewrite map_app, <- app_assoc. simpl. f_equal.
      * apply map_ext_in. intros [j w] Hj. unfold LinkRule.laid. simpl.
        destruct (String.eqb_spec j k) as [E|E]; [|reflexivity].
        subst. elim I. change k with (fst (k, w)). now apply in_map.
      * unfold LinkRule.laid at 1. simpl. rewrite Gk. f_equal.
        apply filter_ext_in. intros [j w] Hj.
        unfold LinkRule.fresh_for, LinkRule.has_key, dict_keys. simpl.
        rewrite map_app, existsb_app. simpl.
        destruct (String.eqb_spec j k) as [E|E]; [|now rewrite !orb_false_r].
        subst. elim Hn. change k with (fst (k, w)). now apply in_map.
Qed.

(** C2 (as amended): the link target is the query string obtained by
    laying the changed keys over the current parameters, dropping every
    parameter whose resulting value is absent ([None]), and joining the
    remaining ones, empty values included, as [key=value] pairs separated
    by [&] after a [?]; with no parameter left the target is empty. *)
Theorem get_updated_href_overlay (rq : request_query) (keyvals : dict) :
  NoDup (dict_keys keyvals) ->
  Stats.get_updated_href rq keyvals
  = LinkRule.target_dropping_absent rq keyvals.
Proof.
  intros N. rewrite href_of_assigned.
  unfold LinkRule.target_dropping_absent, LinkRule.overlay.
  rewrite assign_all_overlay by (try exact N; apply dict_of_query_NoDup).
  reflexivity.
Qed.

Lemma get_updated_href_overlay_witness :
  NoDup (dict_keys [(FUNC_LOC_KEY, None); (FUNC_NAME_KEY, Some "foo")])
  /\ Stats.get_updated_href
       [("sort", "time"); ("func_loc", "mod.py:10")]
       [(FUNC_LOC_KEY, None); (FUNC_NAME_KEY, Some "foo")]
     = "?sort=time&func_name=foo".
Proof.
  assert (N : NoDup (dict_keys
                [(FUNC_LOC_KEY, None); (FUNC_NAME_KEY, Some "foo")])).
  { repeat constructor; simpl; intuition discriminate. }
  split; [exact N|].
  rewrite (get_updated_href_overlay _ _ N). reflexivity.
Defined.

(** C2 (as stated) fails: a parameter whose value is the empty string is
    written as [sort=]. *)
Lemma get_updated_href_keeps_empty :
  Stats.get_updated_href [("sort", "")] [(FUNC_NAME_KEY, Some "foo")]
  = "?sort=&func_name=foo"
  /\ Stats.get_updated_href [("sort", "")] [(FUNC_NAME_KEY, Some "foo")]
     <> LinkRule.target_dropping_empty
          [("sort", "")] [(FUNC_NAME_KEY, Some "foo")].
Proof. split; [reflexivity | discriminate]. Qed.

End LinkTarget.

(** ** Building a link target again *)

Section LinkIdempotence.

Lemma dict_of_query_distinct (l : list (string * string)) :
  NoDup (map fst l) ->
  dict_of_query l = map (fun kv => (fst kv, Some (snd kv))) l.
Proof.
  unfold dict_of_query.
  assert (G : forall (d : dict),
    NoDup (dict_keys d ++ map fst l) ->
    fold_left (fun d kv => dict_setitem (fst kv) (Some (snd kv)) d) l d
    = (d ++ map (fun kv => (fst kv, Some (snd kv))) l)%list).
  { induction l as [|[k v] l IH]; simpl; intros d N.
    - now rewrite app_nil_r.
    - assert (I : ~ In k (dict_keys d)).
      { intros I. apply NoDup_remove_2 in N. apply N, in_or_app. now left. }
      rewrite IH.
      + rewrite setitem_new by exact I. now rewrite <- app_assoc.
      + rewrite setitem_new by exact I. unfold dict_keys.
        rewrite map_app, <- app_assoc. exact N. }
  intros N. now rewrite G.
Qed.

Lemma present_of_pairs (l : list (string * string)) :
  LinkRule.present (map (fun kv => (fst kv, Some (snd kv))) l) = l.
Proof.
  induction l as [|[k v] l IH]; simpl; [reflexivity | now rewrite IH].
Qed.

(** Assigning again values that the final dictionary [d] already holds
    leaves the serialized parameters as they are. *)
Lemma reassign_present (d : dict) :
  NoDup (dict_keys d) ->
  forall (part e : dict),
    (forall k v, In (k, v) part -> dict_getitem k d = Some v) ->
    NoDup (dict_keys e) ->
    LinkRule.present e = LinkRule.present d ->
    LinkRule.present (dict_assign_all part e) = LinkRule.present d.
Proof.
  intros Nd part. unfold dict_assign_all.
  induction part as [|[k v] part IH]; simpl; intros e Hp Ne He; [exact He|].
  assert (Gk : dict_getitem k d = Some v) by (apply Hp; now left).
  apply IH.
  - intros j w I. apply Hp. now right.
  - apply setitem_NoDup, Ne.
  - destruct v as [x|].
    + rewrite setitem_same_entry; [exact He | exact Ne |].
      apply present_In. rewrite He. apply present_In, getitem_In, Gk.
    + destruct (in_dec string_dec k (dict_keys e)) as [I|I].
      * apply in_map_iff in I as ([k' [y|]] & E & I); simpl in E; subst k'.
        -- exfalso. apply present_In in I. rewrite He in I.
           apply present_In in I. apply (In_getitem _ _ _ Nd) in I.
           congruence.
        -- now rewrite setitem_same_entry.
      * rewrite setitem_new by exact I. rewrite present_app. simpl.
        now rewrite app_nil_r.
Qed.

(** C8: building a link target is idempotent.  With the pairs written
    into a target taken as the current parameters, the target built with
    the same changed keys is the same target.  Likewise, assigning the
    changed keys a second time to the query dictionary leaves the target
    as it is. *)
Theorem get_updated_href_idempotent (rq : request_query) (keyvals : dict) :
  NoDup (dict_keys keyvals) ->
  Stats.get_updated_href (LinkRule.carried rq keyvals) keyvals
  = Stats.get_updated_href rq keyvals
  /\ LinkRule.query_string
       (LinkRule.present
          (dict_assign_all keyvals
             (dict_assign_all keyvals (dict_of_query rq))))
     = Stats.get_updated_href rq keyvals.
Proof.
  intros N. rewrite !href_of_assigned.
  set (d := dict_assign_all keyvals (dict_of_query rq)).
  assert (Nd : NoDup (dict_keys d))
    by apply assign_all_NoDup, dict_of_query_NoDup.
  assert (Hd : forall k v, In (k, v) keyvals -> dict_getitem k d = Some v)
    by (intros k v I; now apply getitem_assign_all).
  split; f_equal.
  - unfold LinkRule.carried. fold d.
    rewrite dict_of_query_distinct by now apply present_keys_NoDup.
    apply reassign_present; [exact Nd | exact Hd | | apply present_of_pairs].
    unfold dict_keys. rewrite map_map. simpl.
    now apply present_keys_NoDup.
  - now apply reassign_present.
Qed.

Lemma get_updated_href_idempotent_witness :
  Stats.get_updated_href
    (LinkRule.carried [("sort", "time"); ("func_loc", "mod.py:10")]
                      [(FUNC_LOC_KEY, None); (FUNC_NAME_KEY, Some "foo")])
    [(FUNC_LOC_KEY, None); (FUNC_NAME_KEY, Some "foo")]
  = Stats.get_updated_href
      [("sort", "time"); ("func_loc", "mod.py:10")]
      [(FUNC_LOC_KEY, None); (FUNC_NAME_KEY, Some "foo")].
Proof.
  apply get_updated_href_idempotent.
  repeat constructor; simpl; intuition discriminate.
Defined.

End LinkIdempotence.

(** ** The output stream and the session *)

Section SessionFacts.

Context {lib : AggregationLibrary}.

Lemma write_at_end (text : string) (io : StringIO.t) :
  StringIO.pos io = String.length (StringIO.value io) ->
  StringIO.write text io
  = StringIO.mk (StringIO.value io ++ text)
                (String.length (StringIO.value io ++ text)).
Proof.
  destruct io as [v p]. simpl. intros ->. unfold StringIO.write. simpl.
  rewrite Nat.sub_diag. simpl. rewrite take_length_append, append_nil_r.
  rewrite drop_beyond by lia. now rewrite append_nil_r, length_append.
Qed.

Lemma read_stream_empties (s : session) :
  read_stream s
  = (StringIO.value (stream s),
     {| stream := StringIO.new; stats := stats s |}).
Proof. reflexivity. Qed.

Lemma run_call_stream (s : session) (c : print_call) :
  StringIO.pos (stream s) = String.length (StringIO.value (stream s)) ->
  run_call s c
  = {| stream :=
         StringIO.mk
           (StringIO.value (stream s) ++ call_text (stats s) c)
           (String.length (StringIO.value (stream s) ++ call_text (stats s) c));
       stats := stats s |}.
Proof.
  intros H. destruct c; simpl; unfold show, show_callers, show_callees;
    now rewrite write_at_end.
Qed.

Lemma run_calls_stream (cs : list print_call) (s : session) :
  StringIO.pos (stream s) = String.length (StringIO.value (stream s)) ->
  let s' := run_calls cs s in
  StringIO.value (stream s')
  = StringIO.value (stream s) ++ calls_text cs (stats s)
  /\ StringIO.pos (stream s') = String.length (StringIO.value (stream s'))
  /\ stats s' = stats s.
Proof.
  unfold run_calls, calls_text. revert s.
  induction cs as [|c cs IH]; simpl; intros s H.
  - now rewrite append_nil_r.
  - pose proof (run_call_stream s c H) as E.
    destruct (IH (run_call s c)) as (V & P & S); [now rewrite E|].
    rewrite E in V, P, S |- *. simpl in V, P, S |- *.
    rewrite append_assoc in V. now repeat split.
Qed.

Lemma read_stream_after_calls (st : pstats) (cs : list print_call) :
  read_stream (run_calls cs {| stream := StringIO.new; stats := st |})
  = (calls_text cs st, {| stream := StringIO.new; stats := st |}).
Proof.
  rewrite read_stream_empties.
  destruct (run_calls_stream cs {| stream := StringIO.new; stats := st |})
    as (V & _ & S); [reflexivity|].
  simpl in V, S. now rewrite V, S.
Qed.

Lemma read_after_calls (rq : request_query) (st : pstats)
      (cs : list print_call) :
  read rq (run_calls cs {| stream := StringIO.new; stats := st |})
  = (Formatter.format_report rq (calls_text cs st),
     {| stream := StringIO.new; stats := st |}).
Proof. unfold read. now rewrite read_stream_after_calls. Qed.

(** C10: a read empties the stream, so the next read returns the text
    printed since then and nothing older: [read_stream] returns it as it
    is, [read] returns it formatted. *)
Theorem read_consumes_stream :
  (forall s : session,
      snd (read_stream s) = {| stream := StringIO.new; stats := stats s |})
  /\ (forall (rq : request_query) (s : session),
      snd (read rq s) = {| stream := StringIO.new; stats := stats s |})
  /\ (forall (st : pstats) (cs : list print_call),
      let fresh := {| stream := StringIO.new; stats := st |} in
      read_stream (run_calls cs fresh) = (calls_text cs st, fresh))
  /\ (forall (rq : request_query) (st : pstats) (cs : list print_call),
      let fresh := {| stream := StringIO.new; stats := st |} in
      read rq (run_calls cs fresh)
      = (Formatter.format_report rq (calls_text cs st), fresh)).
Proof.
  repeat split; try reflexivity.
  - apply read_stream_after_calls.
  - intros rq st cs fresh. apply read_after_calls.
Qed.

(** C9: sorting with an empty key, which is also the default of the
    parameter, sorts by ['cumulative']. *)
Theorem sort_defaults_to_cumulative (s : session) :
  Stats.DEFAULT_SORT_ARG = "cumulative"
  /\ sort EmptyString s = sort "cumulative" s
  /\ sort EmptyString s
     = (st <- sort_stats "cumulative" (stats s) ;;
        Ok {| stream := stream s; stats := st |}).
Proof. repeat split. Qed.

(** C3 (as amended): an unrecognized sort word is handed to the library
    as it is, and the error the library raises for it ends the request. *)
Theorem route_handler_unknown_sort
        (profile : source) (title : string) (rq : request_query)
        (key : string) (st : pstats) (e : exn) :
  load profile = Ok st ->
  query_get SORT_KEY rq = Some key ->
  key <> EmptyString ->
  sort_stats key st = Raise e ->
  route_handler profile title rq = Raise e.
Proof.
  intros Hl Hq Hk Hs. unfold route_handler, init. rewrite Hl. simpl.
  rewrite Hq. simpl. unfold sort at 1. simpl.
  assert (T : truthy key = true).
  { unfold truthy. destruct (String.eqb_spec key EmptyString); [easy | reflexivity]. }
  unfold str_or. rewrite T, Hs. reflexivity.
Qed.

(** Within a session every render prints from the statistics loaded when
    the session was opened. *)
Lemma render_text (rq : request_query) (restrictions : list string) (w : world) :
  stream (current w) = StringIO.new ->
  render rq restrictions w
  = (Formatter.format_report rq (print_stats restrictions (stats (current w))),
     {| profile_now := profile_now w;
        current := {| stream := StringIO.new; stats := stats (current w) |} |}).
Proof.
  destruct w as [p [io st]]. simpl. intros ->. unfold render.
  cbn [current profile_now stats].
  change (show restrictions {| stream := StringIO.new; stats := st |})
    with (run_calls [Show restrictions]
            {| stream := StringIO.new; stats := st |}).
  rewrite read_after_calls. unfold calls_text. simpl.
  now rewrite append_nil_r.
Qed.

End SessionFacts.

(** ** The restrictions as patterns *)

Section PatternFacts.

Lemma list_ascii_append (a b : string) :
  list_ascii_of_string (a ++ b)
  = (list_ascii_of_string a ++ list_ascii_of_string b)%list.
Proof. induction a as [|c a IH]; simpl; [reflexivity | now rewrite IH]. Qed.

Lemma string_of_list_append (a b : list ascii) :
  string_of_list_ascii (a ++ b)%list
  = string_of_list_ascii a ++ string_of_list_ascii b.
Proof. induction a as [|c a IH]; simpl; [reflexivity | now rewrite IH]. Qed.


#[local] Arguments Pattern.is_word_char : simpl never.
#[local] Arguments PyStr.has_char : simpl never.



Lemma contains_unfold (w s : string) :
  PyStr.contains w s
  = PyStr.startswith w s
    || match s with
       | String _ s' => PyStr.contains w s'
       | EmptyString => false
       end.
Proof.
  unfold PyStr.contains. destruct s as [|c s]; simpl.
  - now destruct (PyStr.startswith w EmptyString).
  - destruct (PyStr.startswith w (String c s)); [reflexivity|].
    simpl. now destruct (PyStr.find w s).
Qed.





End PatternFacts.

Section ControllerFacts.

Context {lib : AggregationLibrary}.


(** C4 (as amended): a session reads the data source once, when it is
    opened; its renders print from what was read then, so two renders of
    one session give the same text also when the profiled program has
    advanced between them. *)
Theorem renders_print_the_loaded_stats
        (rq : request_query) (restrictions : list string)
        (w0 : world) (p : source) (st0 : pstats) :
  load (profile_now w0) = Ok st0 ->
  exists w,
    open_session w0 = Ok w
    /\ fst (render rq restrictions w)
       = Formatter.format_report rq (print_stats restrictions st0)
    /\ fst (render rq restrictions
              (advance p (snd (render rq restrictions w))))
       = fst (render rq restrictions w).
Proof.
  intros Hl.
  exists {| profile_now := profile_now w0;
            current := {| stream := StringIO.new; stats := st0 |} |}.
  split; [unfold open_session, init; now rewrite Hl|].
  rewrite (render_text rq restrictions) by reflexivity.
  cbn [fst snd current stats advance profile_now].
  split; [reflexivity|].
  now rewrite render_text by reflexivity.
Qed.

End ControllerFacts.

(** ** The controller on the small library *)

Section SmallLibraryRuns.

Import SmallLibrary.

Lemma route_handler_unknown_sort_witness :
  route_handler (lib := library) one_call "t" [("sort", "bogus")] = Raise (KeyError "bogus").
Proof.
  apply (route_handler_unknown_sort (lib := library) one_call "t" [("sort", "bogus")]
           "bogus" (loaded one_call) (KeyError "bogus"));
    [reflexivity | reflexivity | discriminate | reflexivity].
Defined.

(** C3 (as stated) fails: the request with [sort=bogus] ends with the
    library's [KeyError], while the request with no sort word returns a
    page. *)
Lemma unknown_sort_fails_the_request :
  route_handler (lib := library) one_call "t" [("sort", "bogus")] = Raise (KeyError "bogus")
  /\ exists page, route_handler (lib := library) one_call "t" [] = Ok page.
Proof. split; [reflexivity | eexists; reflexivity]. Qed.


Lemma renders_print_the_loaded_stats_witness :
  exists w,
    open_session (lib := library) at_first_request = Ok w
    /\ fst (render (lib := library) [] [] w)
       = Formatter.format_report [] (print_stats (AggregationLibrary := library) [] (loaded one_call))
    /\ fst (render (lib := library) [] [] (advance two_calls (snd (render (lib := library) [] [] w))))
       = fst (render (lib := library) [] [] w).
Proof.
  exact (renders_print_the_loaded_stats (lib := library) [] [] at_first_request two_calls
           (loaded one_call) eq_refl).
Defined.

(** C4 (as stated) fails: the session was opened when the program had
    made one call; after the program has advanced to two calls, a render
    in that session still prints one call, not what the data source
    holds at the time of the render. *)
Lemma render_misses_the_advance :
  open_session (lib := library) at_first_request = Ok opened
  /\ fst (render (lib := library) [] [] (advance two_calls opened))
     = Formatter.format_report [] (print_stats (AggregationLibrary := library) [] (loaded one_call))
  /\ fst (render (lib := library) [] [] (advance two_calls opened))
     <> Formatter.format_report [] (print_stats (AggregationLibrary := library) [] (loaded two_calls)).
Proof.
  split; [reflexivity|]. split; [reflexivity|].
  intros H. vm_compute in H. discriminate.
Qed.

End SmallLibraryRuns.

(** ** Escaping and reading back *)

Section HtmlFacts.

Lemma has_char_append (c : ascii) (a b : string) :
  PyStr.has_char c (a ++ b) = PyStr.has_char c a || PyStr.has_char c b.
Proof.
  induction a as [|x a IH]; simpl; [reflexivity|].
  now rewrite IH, orb_assoc.
Qed.

Lemma replace_char_cons (a c : ascii) (new s : string) :
  PyStr.replace (str1 a) new (String c s)
  = (if Ascii.eqb a c then new else str1 c) ++ PyStr.replace (str1 a) new s.
Proof.
  unfold PyStr.replace. simpl.
  destruct (Ascii.eqb a c); simpl; [|reflexivity].
  now destruct s.
Qed.

Lemma replace_char_append (a : ascii) (new x y : string) :
  PyStr.replace (str1 a) new (x ++ y)
  = PyStr.replace (str1 a) new x ++ PyStr.replace (str1 a) new y.
Proof.
  induction x as [|c x IH]; [reflexivity|].
  change (String c x ++ y) with (String c (x ++ y)).
  now rewrite !replace_char_cons, IH, append_assoc.
Qed.

Lemma html_escape_append (x y : string) :
  Bottle.html_escape (x ++ y) = Bottle.html_escape x ++ Bottle.html_escape y.
Proof.
  unfold Bottle.html_escape.
  change "'" with (str1 "'"%char). change ">" with (str1 ">"%char).
  change "<" with (str1 "<"%char). change "&" with (str1 "&"%char).
  now rewrite !replace_char_append.
Qed.

Lemma html_escape_cons (c : ascii) (s : string) :
  Bottle.html_escape (String c s)
  = Bottle.html_escape (str1 c) ++ Bottle.html_escape s.
Proof. apply (html_escape_append (str1 c) s). Qed.

(** What escaping makes of one character holds no angle bracket and is
  read back as that character. *)
Lemma escaped_char (c : ascii) :
  PyStr.has_char "<"%char (Bottle.html_escape (str1 c)) = false
  /\ PyStr.has_char ">"%char (Bottle.html_escape (str1 c)) = false
  /\ forall rest,
       Html.decode 0 (Bottle.html_escape (str1 c) ++ rest)
       = String c (Html.decode 0 rest).
Proof.
  destruct c as [[] [] [] [] [] [] [] []];
    (split; [reflexivity | split; [reflexivity | intros rest; reflexivity]]).
Qed.

Lemma escaped_no_lt (s : string) :
  PyStr.has_char "<"%char (Bottle.html_escape s) = false.
Proof.
  induction s as [|c s IH]; [reflexivity|].
  rewrite html_escape_cons, has_char_append, IH.
  now rewrite (proj1 (escaped_char c)).
Qed.

Lemma escaped_no_gt (s : string) :
  PyStr.has_char ">"%char (Bottle.html_escape s) = false.
Proof.
  induction s as [|c s IH]; [reflexivity|].
  rewrite html_escape_cons, has_char_append, IH.
  now rewrite (proj1 (proj2 (escaped_char c))).
Qed.

Lemma decode_escaped (s rest : string) :
  Html.decode 0 (Bottle.html_escape s ++ rest) = s ++ Html.decode 0 rest.
Proof.
  induction s as [|c s IH]; [reflexivity|].
  rewrite html_escape_cons, append_assoc.
  rewrite (proj2 (proj2 (escaped_char c))). simpl. now rewrite IH.
Qed.

Lemma strip_outside (x y : string) :
  PyStr.has_char "<"%char x = false ->
  Html.strip_tags false (x ++ y) = x ++ Html.strip_tags false y.
Proof.
  induction x as [|c x IH]; simpl; intros H; [reflexivity|].
  apply orb_false_elim in H as [H1 H2]. rewrite H1. now rewrite IH.
Qed.

Lemma strip_inside (x y : string) :
  PyStr.has_char ">"%char x = false ->
  Html.strip_tags true (x ++ y) = Html.strip_tags true y.
Proof.
  induction x as [|c x IH]; simpl; intros H; [reflexivity|].
  apply orb_false_elim in H as [H1 H2]. rewrite H1. simpl. now apply IH.
Qed.

Lemma count_links_outside (x y : string) :
  PyStr.has_char "<"%char x = false ->
  Html.count_links (x ++ y) = Html.count_links y.
Proof.
  induction x as [|c x IH]; intros H; [reflexivity|].
  simpl in H. apply orb_false_elim in H as [H1 H2].
  change (String c x ++ y) with (String c (x ++ y)).
  change (Html.count_links (String c (x ++ y)))
    with ((if Ascii.eqb "<" c && PyStr.startswith "a " (x ++ y)
           then 1 else 0) + Html.count_links (x ++ y)).
  rewrite Ascii.eqb_sym, H1. simpl. now apply IH.
Qed.

(** A link counts for one and shows its text. *)
Lemma count_links_link (url text rest : string) :
  Html.count_links (Bottle.link url text ++ rest) = S (Html.count_links rest).
Proof.
  unfold Bottle.link. rewrite !append_assoc. simpl. f_equal.
  rewrite count_links_outside by apply escaped_no_lt. simpl.
  rewrite count_links_outside by apply escaped_no_lt. reflexivity.
Qed.

Lemma strip_link (url text rest : string) :
  Html.strip_tags false (Bottle.link url text ++ rest)
  = Bottle.html_escape text ++ Html.strip_tags false rest.
Proof.
  unfold Bottle.link. rewrite !append_assoc. simpl.
  rewrite strip_inside by apply escaped_no_gt. simpl.
  rewrite strip_outside by apply escaped_no_lt. reflexivity.
Qed.

End HtmlFacts.

(** ** Lines *)

Section LineFacts.

Lemma has_char_take (c : ascii) (n : nat) (s : string) :
  PyStr.has_char c s = false -> PyStr.has_char c (PyStr.take n s) = false.
Proof.
  revert s. induction n as [|n IH]; intros [|x s]; simpl; try reflexivity.
  intros H. apply orb_false_elim in H as [H1 H2]. now rewrite H1, IH.
Qed.

Lemma not_linebreak_not_lf (c : ascii) :
  is_linebreak c = false -> Ascii.eqb c LF = false.
Proof.
  unfold is_linebreak. simpl. intros H.
  now apply orb_false_elim in H as [H _].
Qed.

Lemma join_empty_cons (l : string) (ls : list string) :
  PyStr.join_empty (l :: ls) = l ++ PyStr.join_empty ls.
Proof. reflexivity. Qed.

(** The lines of a text, put end to end, are the text; and a line feed
    stands nowhere in a line but at its end. *)
Lemma splitlines_acc_spec (n : nat) :
  forall (s acc : string),
    String.length s <= n ->
    PyStr.join_empty (splitlines_acc acc s) = acc ++ s
    /\ (PyStr.has_char LF acc = false ->
        forall l, In l (splitlines_acc acc s) ->
                  PyStr.has_char LF (PyStr.chop_last l) = false).
Proof.
  induction n as [|n IH]; intros s acc Hn.
  - destruct s; [|simpl in Hn; lia]. simpl. split.
    + destruct acc; simpl; now rewrite ?append_nil_r.
    + intros Ha l Hl. destruct acc; simpl in Hl; [easy|].
      destruct Hl as [<-|[]]. now apply has_char_take.
  - destruct s as [|c s]; [apply (IH EmptyString acc); simpl; lia|].
    simpl in Hn.
    assert (Snoc : forall t, PyStr.has_char LF acc = false ->
              PyStr.has_char LF (PyStr.chop_last (acc ++ str1 t)) = false).
    { intros t Ha. now rewrite chop_last_snoc. }
    cbn [splitlines_acc].
    destruct (Ascii.eqb_spec c CR) as [->|Hc].
    + destruct s as [|d s].
      * split; [simpl; now rewrite append_nil_r|].
        intros Ha l [<-|[]]. now apply Snoc.
      * destruct (Ascii.eqb_spec d LF) as [->|Hd].
        -- destruct (IH s EmptyString) as [J L]; [simpl in Hn; lia|].
           split.
           ++ rewrite join_empty_cons, J. now rewrite append_assoc.
           ++ intros Ha l [<-|Hl]; [|now apply L].
              change (String CR (str1 LF)) with (str1 CR ++ str1 LF).
              rewrite <- append_assoc, chop_last_snoc, has_char_append, Ha.
              reflexivity.
        -- destruct (IH (String d s) EmptyString) as [J L]; [lia|].
           split.
           ++ rewrite join_empty_cons, J. now rewrite append_assoc.
           ++ intros Ha l [<-|Hl]; [now apply Snoc | now apply L].
    + destruct (is_linebreak c) eqn:Hb.
      * destruct (IH s EmptyString) as [J L]; [lia|].
        split.
        -- rewrite join_empty_cons, J. now rewrite append_assoc.
        -- intros Ha l [<-|Hl]; [now apply Snoc | now apply L].
      * destruct (IH s (acc ++ str1 c)) as [J L]; [lia|].
        split.
        -- rewrite J. now rewrite append_assoc.
        -- intros Ha. apply L. rewrite has_char_append, Ha. simpl.
           now rewrite (not_linebreak_not_lf c Hb).
Qed.

Lemma splitlines_join (s : string) :
  PyStr.join_empty (splitlines_keepends s) = s.
Proof.
  now destruct (splitlines_acc_spec (String.length s) s EmptyString (le_n _)).
Qed.

Lemma splitlines_lf_last (s l : string) :
  In l (splitlines_keepends s) ->
  PyStr.has_char LF (PyStr.chop_last l) = false.
Proof.
  destruct (splitlines_acc_spec (String.length s) s EmptyString (le_n _))
    as [_ L].
  now apply L.
Qed.

Lemma startswith_append (p x y : string) :
  PyStr.startswith p x = true -> PyStr.startswith p (x ++ y) = true.
Proof.
  revert x. induction p as [|a p IH]; intros [|b x]; simpl; try easy.
  intros H. apply andb_prop in H as [H1 H2]. now rewrite H1, IH.
Qed.

Lemma contains_append_l (p x y : string) :
  PyStr.contains p x = true -> PyStr.contains p (x ++ y) = true.
Proof.
  induction x as [|c x IH]; intros H; rewrite contains_unfold in H.
  - apply orb_prop in H as [H|H]; [|discriminate].
    destruct p; [|discriminate]. rewrite contains_unfold. reflexivity.
  - change (String c x ++ y) with (String c (x ++ y)).
    rewrite contains_unfold.
    apply orb_prop in H as [H|H]; apply orb_true_intro.
    + left. now apply (startswith_append p (String c x) y).
    + right. now apply IH.
Qed.

Lemma contains_append_r (p x y : string) :
  PyStr.contains p y = true -> PyStr.contains p (x ++ y) = true.
Proof.
  intros H. induction x as [|c x IH]; [exact H|].
  change (String c x ++ y) with (String c (x ++ y)).
  rewrite contains_unfold. apply orb_true_intro. now right.
Qed.

Lemma contains_join (p l : string) (ls : list string) :
  In l ls -> PyStr.contains p l = true ->
  PyStr.contains p (PyStr.join_empty ls) = true.
Proof.
  induction ls as [|x ls IH]; [easy|].
  intros [->|H] Hc; rewrite join_empty_cons.
  - now apply contains_append_l.
  - apply contains_append_r. now apply IH.
Qed.

(** A word that does not occur in a text occurs in none of its lines. *)
Lemma absent_in_lines (p s l : string) :
  PyStr.contains p s = false -> In l (splitlines_keepends s) ->
  PyStr.find p l = None.
Proof.
  intros H Hl. destruct (PyStr.find p l) eqn:E; [|reflexivity].
  assert (C : PyStr.contains p l = true) by (unfold PyStr.contains; now rewrite E).
  pose proof (contains_join p l _ Hl C) as J.
  rewrite splitlines_join in J. congruence.
Qed.

End LineFacts.

(** ** The search for a stat line *)

Section StatLineFacts.

Lemma span_until_spec (stop : ascii -> bool) (l : list ascii) :
  let (a, b) := Re.span_until stop l in
  l = (a ++ b)%list
  /\ forallb (fun c => negb (stop c)) a = true
  /\ match b with
     | [] => True
     | c :: _ => stop c = true
     end.
Proof.
  induction l as [|c l IH]; simpl; [easy|].
  destruct (stop c) eqn:E; [easy|].
  destruct (Re.span_until stop l) as [a b]. destruct IH as (-> & F & B).
  simpl. now rewrite E.
Qed.

Lemma has_char_forallb (c : ascii) (s : string) :
  PyStr.has_char c s = false
  <-> forallb (fun x => negb (Ascii.eqb x c)) (list_ascii_of_string s) = true.
Proof.
  induction s as [|x s IH]; simpl; [easy|].
  rewrite orb_false_iff, andb_true_iff, IH, negb_true_iff. reflexivity.
Qed.

Lemma rev_string (l : list ascii) (a b : string) :
  l = (list_ascii_of_string a ++ list_ascii_of_string b)%list ->
  string_of_list_ascii l = a ++ b.
Proof.
  intros ->. now rewrite string_of_list_append, !string_of_list_ascii_of_string.
Qed.

(** On a line with no line feed, a match covers the whole line. *)
Lemma match_reversed_sound (body g1 g2 : string) :
  PyStr.has_char LF body = false ->
  Re.match_reversed (rev (list_ascii_of_string body)) = Some (g1, g2) ->
  body = g1 ++ "(" ++ g2 ++ ")".
Proof.
  unfold Re.match_reversed.
  intros Hlf H. apply has_char_forallb in Hlf.
  assert (Hb : body = string_of_list_ascii
                        (rev (rev (list_ascii_of_string body)))).
  { now rewrite rev_involutive, string_of_list_ascii_of_string. }
  assert (Hr : forallb (fun x => negb (Ascii.eqb x LF))
                       (rev (list_ascii_of_string body)) = true).
  { rewrite forallb_forall in Hlf |- *. intros x Hx.
    apply Hlf. now apply in_rev. }
  rewrite Hb. clear Hb Hlf.
  destruct (rev (list_ascii_of_string body)) as [|c r1]; [discriminate|].
  destruct (Ascii.eqb_spec c RPAREN) as [->|]; [|discriminate].
  pose proof (span_until_spec Re.is_lparen_or_lf r1) as S2.
  destruct (Re.span_until Re.is_lparen_or_lf r1) as [a2 rest].
  destruct S2 as (-> & _ & _).
  destruct rest as [|d r2]; [discriminate|].
  destruct (Ascii.eqb_spec d LPAREN) as [->|]; [|discriminate].
  pose proof (span_until_spec Re.is_lf r2) as S1.
  destruct (Re.span_until Re.is_lf r2) as [a1 rest1].
  destruct S1 as (-> & _ & B).
  injection H as <- <-.
  assert (rest1 = []) as ->.
  { destruct rest1 as [|x rest1]; [reflexivity|]. exfalso.
    simpl in Hr. rewrite forallb_app in Hr.
    apply andb_prop in Hr as [_ Hr]. simpl in Hr.
    rewrite forallb_app in Hr. apply andb_prop in Hr as [_ Hr].
    simpl in Hr. unfold Re.is_lf in B. now rewrite B in Hr. }
  rewrite app_nil_r. simpl. rewrite !rev_app_distr. simpl.
  rewrite <- !app_assoc. simpl.
  rewrite !string_of_list_append. simpl.
  now rewrite string_of_list_append.
Qed.

Lemma rev_list_ascii_snoc (body : string) (c : ascii) :
  rev (list_ascii_of_string (body ++ str1 c))
  = c :: rev (list_ascii_of_string body).
Proof. rewrite list_ascii_append, rev_app_distr. reflexivity. Qed.

Lemma search_with_lf (body : string) :
  Re.stats_line_search (body ++ str1 LF)
  = Re.match_reversed (rev (list_ascii_of_string body)).
Proof.
  unfold Re.stats_line_search. rewrite rev_list_ascii_snoc.
  unfold Re.before_dollar, Re.is_lf. now rewrite Ascii.eqb_refl.
Qed.

Lemma search_without_lf (body : string) :
  PyStr.has_char LF body = false ->
  Re.stats_line_search body
  = Re.match_reversed (rev (list_ascii_of_string body)).
Proof.
  intros Hlf. unfold Re.stats_line_search.
  assert (Hr : forallb (fun x => negb (Ascii.eqb x LF))
                       (rev (list_ascii_of_string body)) = true).
  { apply has_char_forallb in Hlf. rewrite forallb_forall in Hlf |- *.
    intros x Hx. apply Hlf. now apply in_rev. }
  destruct (rev (list_ascii_of_string body)) as [|c r]; [reflexivity|].
  simpl in Hr. apply andb_prop in Hr as [Hc _].
  unfold Re.before_dollar, Re.is_lf. apply negb_true_iff in Hc.
  now rewrite Hc.
Qed.

(** A line that ends with a line feed and holds no other one: a match
    covers the line up to the line feed. *)
Lemma stats_line_search_lf (body g1 g2 : string) :
  PyStr.has_char LF body = false ->
  Re.stats_line_search (body ++ str1 LF) = Some (g1, g2) ->
  body ++ str1 LF = g1 ++ "(" ++ g2 ++ ")" ++ str1 LF.
Proof.
  intros Hlf. rewrite search_with_lf. intros H.
  rewrite (match_reversed_sound body g1 g2 Hlf H).
  now rewrite !append_assoc.
Qed.

(** Group 2 holds no opening parenthesis: group 1 is greedy. *)
Lemma match_reversed_greedy (r : list ascii) (g1 g2 : string) :
  Re.match_reversed r = Some (g1, g2) ->
  PyStr.has_char LPAREN g2 = false.
Proof.
  unfold Re.match_reversed.
  destruct r as [|c r1]; [discriminate|].
  destruct (Ascii.eqb c RPAREN); [|discriminate].
  pose proof (span_until_spec Re.is_lparen_or_lf r1) as S2.
  destruct (Re.span_until Re.is_lparen_or_lf r1) as [a2 rest].
  destruct S2 as (_ & F & _).
  destruct rest as [|d r2]; [discriminate|].
  destruct (Ascii.eqb d LPAREN); [|discriminate].
  destruct (Re.span_until Re.is_lf r2) as [a1 rest1].
  intros [= _ <-]. apply has_char_forallb.
  rewrite list_ascii_of_string_of_list_ascii.
  rewrite forallb_forall in F |- *. intros x Hx. apply in_rev in Hx.
  specialize (F x Hx). unfold Re.is_lparen_or_lf in F.
  apply negb_true_iff, orb_false_elim in F as [F _].
  now rewrite F.
Qed.

(** A line with no line feed that ends with a closing parenthesis and
    holds an opening one before it is matched. *)
Lemma match_reversed_complete (body a b : string) :
  PyStr.has_char LF body = false ->
  body = a ++ "(" ++ b ++ ")" ->
  exists g1 g2,
    Re.match_reversed (rev (list_ascii_of_string body)) = Some (g1, g2).
Proof.
  intros Hlf ->. apply has_char_forallb in Hlf.
  assert (E : rev (list_ascii_of_string (a ++ "(" ++ b ++ ")"))
              = RPAREN :: (rev (list_ascii_of_string b)
                           ++ LPAREN :: rev (list_ascii_of_string a))%list).
  { rewrite !list_ascii_append. simpl. rewrite rev_app_distr. simpl.
    rewrite rev_app_distr. simpl. now rewrite <- app_assoc. }
  assert (Hr : forallb (fun x => negb (Ascii.eqb x LF))
                 (rev (list_ascii_of_string (a ++ "(" ++ b ++ ")"))) = true).
  { rewrite forallb_forall in Hlf |- *. intros x Hx.
    apply Hlf. now apply in_rev. }
  rewrite E in Hr |- *. clear E Hlf.
  unfold Re.match_reversed. rewrite Ascii.eqb_refl.
  simpl in Hr.
  set (l := (rev (list_ascii_of_string b)
             ++ LPAREN :: rev (list_ascii_of_string a))%list) in *.
  assert (Hin : In LPAREN l) by (apply in_or_app; right; now left).
  pose proof (span_until_spec Re.is_lparen_or_lf l) as S2.
  destruct (Re.span_until Re.is_lparen_or_lf l) as [a2 rest].
  destruct S2 as (El & F & B).
  destruct rest as [|d r2].
  - exfalso. rewrite app_nil_r in El. subst a2.
    rewrite forallb_forall in F. specialize (F _ Hin).
    unfold Re.is_lparen_or_lf in F. now rewrite Ascii.eqb_refl in F.
  - assert (Hd : Ascii.eqb d LF = false).
    { rewrite forallb_forall in Hr. apply negb_true_iff, Hr.
      rewrite El. apply in_or_app. right. now left. }
    unfold Re.is_lparen_or_lf in B. rewrite Hd, orb_false_r in B.
    rewrite B. destruct (Re.span_until Re.is_lf r2). now eexists; eexists.
Qed.

Lemma first_occurrence_unique (x : ascii) (a a' b b' : list ascii) :
  (a ++ x :: b = a' ++ x :: b')%list ->
  ~ In x a -> ~ In x a' -> a = a' /\ b = b'.
Proof.
  revert a'. induction a as [|c a IH]; intros [|c' a'] E Ha Ha'; simpl in *.
  - now injection E.
  - injection E as -> _. elim Ha'. now left.
  - injection E as <- _. elim Ha. now left.
  - injection E as <- E.
    destruct (IH a' E) as [-> ->]; [tauto | tauto | easy].
Qed.

(** X6: on a line that ends with a line feed and holds no other one, the
    search for a stat line succeeds exactly when the line before the line
    feed ends with a closing parenthesis and holds an opening one; the name
    is the text after the last opening parenthesis, and the prefix, the
    name and the two parentheses make up the whole line. *)
Lemma stats_line_search_spec (body g1 g2 : string) :
  PyStr.has_char LF body = false ->
  Re.stats_line_search (body ++ str1 LF) = Some (g1, g2)
  <-> body = g1 ++ "(" ++ g2 ++ ")" /\ PyStr.has_char LPAREN g2 = false.
Proof.
  intros Hlf. rewrite search_with_lf. split.
  - intros H. split; [now apply match_reversed_sound|].
    now apply (match_reversed_greedy (rev (list_ascii_of_string body)) g1).
  - intros [E G].
    destruct (match_reversed_complete body g1 g2 Hlf E) as (h1 & h2 & H).
    rewrite H. f_equal.
    pose proof (match_reversed_sound body h1 h2 Hlf H) as E'.
    pose proof (match_reversed_greedy
                  (rev (list_ascii_of_string body)) h1 h2 H) as G'.
    rewrite E in E'.
    apply (f_equal list_ascii_of_string) in E'.
    rewrite !list_ascii_append in E'. simpl in E'.
    apply (f_equal (@rev ascii)) in E'.
    rewrite !rev_app_distr in E'. simpl in E'.
    rewrite !rev_app_distr in E'. simpl in E'.
    injection E' as E'. rewrite <- !app_assoc in E'. simpl in E'.
    apply first_occurrence_unique in E' as [E2 E1].
    + apply (f_equal (@rev ascii)) in E1, E2.
      rewrite !rev_involutive in E1, E2.
      apply (f_equal string_of_list_ascii) in E1, E2.
      rewrite !string_of_list_ascii_of_string in E1, E2. now subst.
    + intros I. apply in_rev in I. apply has_char_forallb in G.
      rewrite forallb_forall in G. specialize (G _ I).
      now rewrite Ascii.eqb_refl in G.
    + intros I. apply in_rev in I. apply has_char_forallb in G'.
      rewrite forallb_forall in G'. specialize (G' _ I).
      now rewrite Ascii.eqb_refl in G'.
Qed.

End StatLineFacts.

(** ** The formatted report, line by line *)

Section ReportFacts.

Lemma process_lines_app (rq : request_query) (a b : list string)
      (i : Formatter.info) :
  Formatter.process_lines rq (a ++ b) i
  = (Formatter.process_lines rq a i
     ++ Formatter.process_lines rq b (Formatter.info_after rq a i))%list.
Proof.
  revert i. induction a as [|l a IH]; intros i; simpl; [reflexivity|].
  destruct (Formatter.process_line rq l i) as [l' i']. simpl.
  now rewrite IH.
Qed.

Lemma process_lines_length (rq : request_query) (a : list string)
      (i : Formatter.info) :
  List.length (Formatter.process_lines rq a i) = List.length a.
Proof.
  revert i. induction a as [|l a IH]; intros i; simpl; [reflexivity|].
  destruct (Formatter.process_line rq l i) as [l' i']. simpl.
  now rewrite IH.
Qed.

(** The line that the loop puts in the place of [line]. *)
Lemma formatted_nth (rq : request_query) (before after : list string)
      (line : string) :
  nth_error (Formatter.process_lines rq (before ++ line :: after) None)
            (List.length before)
  = Some (fst (Formatter.process_line rq line
                 (Formatter.info_after rq before None))).
Proof.
  rewrite process_lines_app.
  rewrite nth_error_app2 by (rewrite process_lines_length; apply le_n).
  rewrite process_lines_length, Nat.sub_diag. simpl.
  now destruct (Formatter.process_line rq line
                  (Formatter.info_after rq before None)).
Qed.

Lemma process_line_plain (rq : request_query) (line : string)
      (i : Formatter.info) :
  Re.header_line_search line = false ->
  Formatter.process_line rq line i = (Formatter.format_stat rq line i, i).
Proof.
  intros H. unfold Formatter.process_line, Formatter.format_header.
  now rewrite H.
Qed.

(** Without the signature header the column is never recorded. *)
Lemma info_stays_empty (rq : request_query) (lines : list string) :
  (forall l, In l lines -> PyStr.find Stats.FUNCTION_SIG_HEADER l = None) ->
  Formatter.info_after rq lines None = None.
Proof.
  induction lines as [|l lines IH]; intros H; [reflexivity|].
  simpl. unfold Formatter.process_line, Formatter.format_header.
  destruct (Re.header_line_search l); simpl.
  - rewrite (H l) by now left. apply IH. intros x Hx. apply H. now right.
  - apply IH. intros x Hx. apply H. now right.
Qed.

(** Once recorded, the column is kept. *)
Lemma info_kept (rq : request_query) (lines : list string) (p : nat) :
  Formatter.info_after rq lines (Some p) = Some p.
Proof.
  induction lines as [|l lines IH]; [reflexivity|].
  simpl. unfold Formatter.process_line, Formatter.format_header.
  now destruct (Re.header_line_search l).
Qed.

(** After a header line that holds the signature header, the column is
    recorded. *)
Lemma info_recorded (rq : request_query) (lines : list string) (h : string) :
  In h lines ->
  Re.header_line_search h = true ->
  PyStr.contains Stats.FUNCTION_SIG_HEADER h = true ->
  forall i, exists p, Formatter.info_after rq lines i = Some p.
Proof.
  intros Hin Hh Hc.
  induction lines as [|l lines IH]; [easy|].
  intros [p|]; [exists p; apply info_kept|].
  destruct Hin as [->|Hin]; [|simpl; now apply IH].
  simpl. unfold Formatter.process_line, Formatter.format_header.
  rewrite Hh. simpl. unfold PyStr.contains in Hc.
  destruct (PyStr.find Stats.FUNCTION_SIG_HEADER h) as [p|]; [|discriminate].
  exists p. apply info_kept.
Qed.

Lemma decode_paren (rest : string) :
  Html.decode 0 ("(" ++ rest) = "(" ++ Html.decode 0 rest.
Proof. exact (decode_escaped "(" rest). Qed.

Lemma visible_stat_line (prefix url1 loc url2 name : string) :
  Html.visible_text
    (Bottle.stat_line prefix (Bottle.link url1 loc) (Bottle.link url2 name))
  = prefix ++ loc ++ "(" ++ name ++ ")" ++ str1 LF.
Proof.
  unfold Html.visible_text, Bottle.stat_line.
  rewrite strip_outside by apply escaped_no_lt.
  rewrite strip_link.
  rewrite (strip_outside "(") by reflexivity.
  rewrite strip_link.
  change (Html.strip_tags false (")" ++ str1 LF)) with (")" ++ str1 LF).
  now rewrite !decode_escaped, decode_paren, decode_escaped.
Qed.

Lemma visible_name_only (prefix url name : string) :
  Html.visible_text
    (Bottle.stat_line prefix EmptyString (Bottle.link url name))
  = prefix ++ "(" ++ name ++ ")" ++ str1 LF.
Proof.
  unfold Html.visible_text, Bottle.stat_line.
  rewrite strip_outside by apply escaped_no_lt.
  change (EmptyString ++ "(" ++ Bottle.link url name ++ ")" ++ str1 LF)
    with ("(" ++ Bottle.link url name ++ ")" ++ str1 LF).
  rewrite (strip_outside "(") by reflexivity.
  rewrite strip_link.
  change (Html.strip_tags false (")" ++ str1 LF)) with (")" ++ str1 LF).
  now rewrite decode_escaped, decode_paren, decode_escaped.
Qed.

Lemma count_stat_line (prefix url1 loc url2 name : string) :
  Html.count_links
    (Bottle.stat_line prefix (Bottle.link url1 loc) (Bottle.link url2 name))
  = 2.
Proof.
  unfold Bottle.stat_line.
  rewrite count_links_outside by apply escaped_no_lt.
  rewrite count_links_link.
  rewrite (count_links_outside "(") by reflexivity.
  now rewrite count_links_link.
Qed.

Lemma count_name_only (prefix url name : string) :
  Html.count_links
    (Bottle.stat_line prefix EmptyString (Bottle.link url name))
  = 1.
Proof.
  unfold Bottle.stat_line.
  rewrite count_links_outside by apply escaped_no_lt.
  change (EmptyString ++ "(" ++ Bottle.link url name ++ ")" ++ str1 LF)
    with ("(" ++ Bottle.link url name ++ ")" ++ str1 LF).
  rewrite (count_links_outside "(") by reflexivity.
  now rewrite count_links_link.
Qed.

(** C1 (as amended): in every report text, a line that ends with a line
    feed, holds none of the header words, comes after the signature header
    (the column of the signatures is recorded) and has a name between its
    final parentheses that is neither empty nor ['function'], is formatted
    with exactly two links, over the location and over the name, and what
    it shows is the line as it was. *)
Theorem stat_line_gets_two_links
        (rq : request_query) (output : string)
        (before after : list string)
        (line body prefix func_name : string) (func_col_pos : nat) :
  splitlines_keepends output = (before ++ line :: after)%list ->
  Formatter.info_after rq before None = Some func_col_pos ->
  line = body ++ str1 LF ->
  Re.header_line_search line = false ->
  Re.stats_line_search line = Some (prefix, func_name) ->
  Formatter.ignored func_name = false ->
  let func_loc := PyStr.drop func_col_pos prefix in
  let location_link :=
    Bottle.link
      (Stats.get_updated_href rq
         [(FUNC_LOC_KEY, Some func_loc); (FUNC_NAME_KEY, Some func_name)])
      func_loc in
  let name_link :=
    Bottle.link
      (Stats.get_updated_href rq
         [(FUNC_LOC_KEY, None); (FUNC_NAME_KEY, Some func_name)])
      func_name in
  let formatted :=
    Bottle.html_escape (PyStr.take func_col_pos prefix)
    ++ location_link ++ "(" ++ name_link ++ ")" ++ str1 LF in
  nth_error (Formatter.process_lines rq (splitlines_keepends output) None)
            (List.length before)
  = Some formatted
  /\ Html.count_links formatted = 2
  /\ Html.visible_text formatted = line.
Proof.
  intros Hsplit Hinfo Hline Hhead Hsearch Hname func_loc location_link
         name_link formatted.
  assert (Hout : Formatter.format_stat rq line (Some func_col_pos) = formatted).
  { unfold Formatter.format_stat. now rewrite Hsearch, Hname. }
  split; [|split].
  - rewrite Hsplit, formatted_nth, Hinfo, process_line_plain by exact Hhead.
    simpl. now rewrite Hout.
  - apply count_stat_line.
  - transitivity (PyStr.take func_col_pos prefix ++ func_loc
                  ++ "(" ++ func_name ++ ")" ++ str1 LF);
      [apply (visible_stat_line (PyStr.take func_col_pos prefix))|].
    unfold func_loc. rewrite <- append_assoc, take_drop.
    assert (Hlf : PyStr.has_char LF body = false).
    { rewrite <- (chop_last_snoc body LF), <- Hline.
      apply (splitlines_lf_last output). rewrite Hsplit.
      apply in_or_app. right. now left. }
    rewrite Hline in Hsearch |- *. symmetry.
    now apply stats_line_search_lf.
Qed.

(** In a report text in which the signature header never occurs, a line
    that holds none of the header words and has a name between its final
    parentheses that is neither empty nor ['function'] is formatted with
    one link, over the name; its target is built from the name with the
    location cleared. *)
Lemma stat_line_without_header
        (rq : request_query) (output : string)
        (before after : list string) (line prefix func_name : string) :
  PyStr.contains Stats.FUNCTION_SIG_HEADER output = false ->
  splitlines_keepends output = (before ++ line :: after)%list ->
  Re.header_line_search line = false ->
  Re.stats_line_search line = Some (prefix, func_name) ->
  Formatter.ignored func_name = false ->
  let keyvals := [(FUNC_LOC_KEY, None); (FUNC_NAME_KEY, Some func_name)] in
  let name_link :=
    Bottle.link (Stats.get_updated_href rq keyvals) func_name in
  let formatted :=
    Bottle.html_escape prefix ++ "(" ++ name_link ++ ")" ++ str1 LF in
  nth_error (Formatter.process_lines rq (splitlines_keepends output) None)
            (List.length before)
  = Some formatted
  /\ Html.count_links formatted = 1
  /\ Html.visible_text formatted = prefix ++ "(" ++ func_name ++ ")" ++ str1 LF.
Proof.
  intros Habsent Hsplit Hhead Hsearch Hname keyvals name_link formatted.
  assert (Hinfo : Formatter.info_after rq before None = None).
  { apply info_stays_empty. intros l Hl.
    apply (absent_in_lines _ output); [exact Habsent|].
    rewrite Hsplit. apply in_or_app. now left. }
  assert (Hout : Formatter.format_stat rq line None = formatted).
  { unfold Formatter.format_stat. now rewrite Hsearch, Hname. }
  split; [|split].
  - rewrite Hsplit, formatted_nth, Hinfo, process_line_plain by exact Hhead.
    simpl. now rewrite Hout.
  - apply (count_name_only prefix).
  - apply (visible_name_only prefix).
Qed.

(** The stat-line half of [process_line] adds nothing to a line whose
    name, after the header half, is empty or ['function']. *)
Lemma ignored_name_adds_nothing
      (rq : request_query) (line prefix func_name : string)
      (i : Formatter.info) :
  Re.stats_line_search (fst (Formatter.format_header rq line i))
  = Some (prefix, func_name) ->
  Formatter.ignored func_name = true ->
  Formatter.process_line rq line i = Formatter.format_header rq line i.
Proof.
  unfold Formatter.process_line.
  destruct (Formatter.format_header rq line i) as [l' i']. simpl.
  intros Hs Hi. unfold Formatter.format_stat. now rewrite Hs, Hi.
Qed.

(** A line that holds none of the header words and whose name between
    the final parentheses is empty or ['function'] is left as it is: it
    stands unchanged in the formatted report, with no link put into it,
    whatever the loop has recorded. *)
Lemma noise_line_unchanged
        (rq : request_query) (output : string)
        (before after : list string) (line prefix func_name : string) :
  splitlines_keepends output = (before ++ line :: after)%list ->
  Re.header_line_search line = false ->
  Re.stats_line_search line = Some (prefix, func_name) ->
  func_name = EmptyString \/ func_name = "function" ->
  nth_error (Formatter.process_lines rq (splitlines_keepends output) None)
            (List.length before)
  = Some line
  /\ forall i, Formatter.process_line rq line i = (line, i).
Proof.
  intros Hsplit Hhead Hsearch Hname.
  assert (Hign : Formatter.ignored func_name = true)
    by (destruct Hname as [->| ->]; reflexivity).
  assert (Hall : forall i, Formatter.process_line rq line i = (line, i)).
  { intros i.
    assert (Hh : Formatter.format_header rq line i = (line, i))
      by (unfold Formatter.format_header; now rewrite Hhead).
    rewrite (ignored_name_adds_nothing rq line prefix func_name i);
      [exact Hh | now rewrite Hh | exact Hign]. }
  split; [|exact Hall].
  now rewrite Hsplit, formatted_nth, Hall.
Qed.

End ReportFacts.

(** ** The formatter on sample reports *)

Section SampleRuns.

Lemma stat_line_gets_two_links_witness :
  exists formatted,
    nth_error
      (Formatter.process_lines [] (splitlines_keepends Sample.report) None) 1
    = Some formatted
    /\ Html.count_links formatted = 2
    /\ Html.visible_text formatted = Sample.stat_line.
Proof.
  eexists.
  exact (stat_line_gets_two_links
           [] Sample.report [Sample.header_line] [] Sample.stat_line
           Sample.stat_body
           "        1    0.000    0.000    0.000    0.000 mod.py:10" "foo" 46
           eq_refl eq_refl eq_refl eq_refl eq_refl eq_refl).
Defined.

(** C1 (as stated) fails.  In a report with no signature header, as the
    callers report is, a stat line with the name [foo] is formatted with
    one link only.  And in a report whose last line is not ended by a
    line feed, the formatted last line shows one character more than the
    line: the line feed that the template ends every stat line with. *)
Lemma stat_line_with_one_link :
  (splitlines_keepends Sample.callers_line = [Sample.callers_line]
   /\ Re.stats_line_search Sample.callers_line = Some ("mod.py:10", "foo")
   /\ Formatter.ignored "foo" = false
   /\ Formatter.process_lines [] [Sample.callers_line] None
      = ["mod.py:10(<a href='?func_name=foo'>foo</a>)" ++ str1 LF]
   /\ Html.count_links
        ("mod.py:10(<a href='?func_name=foo'>foo</a>)" ++ str1 LF) = 1)
  /\ (splitlines_keepends Sample.unfinished_report
      = [Sample.header_line; Sample.stat_body]
      /\ Html.visible_text
           (nth 1 (Formatter.process_lines []
                     [Sample.header_line; Sample.stat_body] None)
                EmptyString)
         = Sample.stat_body ++ str1 LF).
Proof. repeat split. Qed.

Lemma stat_line_without_header_run :
  exists formatted,
    nth_error
      (Formatter.process_lines [] (splitlines_keepends Sample.callers_line) None)
      0
    = Some formatted
    /\ Html.count_links formatted = 1
    /\ Html.visible_text formatted = Sample.callers_line.
Proof.
  eexists.
  exact (stat_line_without_header
           [] Sample.callers_line [] [] Sample.callers_line "mod.py:10" "foo"
           eq_refl eq_refl eq_refl eq_refl eq_refl).
Defined.

Lemma noise_line_unchanged_run :
  nth_error
    (Formatter.process_lines [] (splitlines_keepends Sample.noise_line) None) 0
  = Some Sample.noise_line.
Proof.
  exact (proj1 (noise_line_unchanged
                  [] Sample.noise_line [] [] Sample.noise_line
                  "        1    0.000 mod.py:10" EmptyString
                  eq_refl eq_refl eq_refl (or_introl eq_refl))).
Defined.

(** C5, on a line whose name holds a header word.  The text is one line
    of a callers report, for the function [get_ncalls]; the signature
    header does not occur in it, and the name is neither empty nor
    ['function'].  The header half of [process_line] takes the line for a
    header line, since the search for a header word finds [ncalls] in the
    name, and puts a sort link around the word.  The stat half then reads
    the name with that link in it, and builds the name link from it: the
    target and the text of the link are not the bare name [get_ncalls],
    and the formatted line is not the line that the name link built from
    the bare name gives. *)
Theorem header_word_in_name_breaks_name_link :
  (PyStr.contains Stats.FUNCTION_SIG_HEADER Sample.getter_line = false
   /\ splitlines_keepends Sample.getter_line = [Sample.getter_line]
   /\ Re.stats_line_search Sample.getter_line
      = Some ("mod.py:10", "get_ncalls")
   /\ Formatter.ignored "get_ncalls" = false)
  /\ (fst (Formatter.format_header [] Sample.getter_line None)
      = "mod.py:10(get_<a href='?sort=calls'>ncalls</a>)" ++ str1 LF
      /\ Re.stats_line_search
           (fst (Formatter.format_header [] Sample.getter_line None))
         = Some ("mod.py:10", "get_<a href='?sort=calls'>ncalls</a>"))
  /\ (Formatter.process_lines [] (splitlines_keepends Sample.getter_line) None
      = ["mod.py:10("
         ++ Bottle.link
              (Stats.get_updated_href []
                 [(FUNC_LOC_KEY, None);
                  (FUNC_NAME_KEY, Some "get_<a href='?sort=calls'>ncalls</a>")])
              "get_<a href='?sort=calls'>ncalls</a>"
         ++ ")" ++ str1 LF]
      /\ Formatter.process_lines [] (splitlines_keepends Sample.getter_line) None
         = ["mod.py:10(<a href='?func_name=get_&lt;a href=&#039;?sort=calls&#039;&gt;ncalls&lt;/a&gt;'>get_&lt;a href=&#039;?sort=calls&#039;&gt;ncalls&lt;/a&gt;</a>)"
            ++ str1 LF])
  /\ (String.eqb
        (nth 0 (Formatter.process_lines []
                  (splitlines_keepends Sample.getter_line) None)
             EmptyString)
        ("mod.py:10("
         ++ Bottle.link
              (Stats.get_updated_href []
                 [(FUNC_LOC_KEY, None); (FUNC_NAME_KEY, Some "get_ncalls")])
              "get_ncalls"
         ++ ")" ++ str1 LF)
      = false
      /\ String.eqb
           (Html.visible_text
              (nth 0 (Formatter.process_lines []
                        (splitlines_keepends Sample.getter_line) None)
                   EmptyString))
           Sample.getter_line
         = false).
Proof.
  repeat match goal with |- _ /\ _ => split end; vm_compute; reflexivity.
Qed.

(** C6, on a line that holds a header word.  The report is the header line
    and one stat line, for a function called [function] in the file
    [ncalls.py]: the name between the final parentheses is ['function'].
    The header half of [process_line] takes the line for a header line,
    since the search for a header word finds [ncalls] in the file name,
    and puts a sort link around the word: the line is not left as it is,
    it holds one link. *)
Theorem header_word_in_noise_line_gets_link :
  (splitlines_keepends Sample.sentinel_report
   = [Sample.header_line; Sample.sentinel_line]
   /\ Re.stats_line_search Sample.sentinel_line
      = Some ("        1    0.000    0.000    0.000    0.000 ncalls.py:10",
              "function")
   /\ Formatter.ignored "function" = true)
  /\ (nth_error
        (Formatter.process_lines []
           (splitlines_keepends Sample.sentinel_report) None) 1
      = Some ("        1    0.000    0.000    0.000    0.000 <a href='?sort=calls'>ncalls</a>.py:10(function)"
              ++ str1 LF)
      /\ Html.count_links
           ("        1    0.000    0.000    0.000    0.000 <a href='?sort=calls'>ncalls</a>.py:10(function)"
            ++ str1 LF)
         = 1)
  /\ String.eqb
       (nth 1 (Formatter.process_lines []
                 (splitlines_keepends Sample.sentinel_report) None)
            EmptyString)
       Sample.sentinel_line
     = false.
Proof.
  repeat match goal with |- _ /\ _ => split end; vm_compute; reflexivity.
Qed.

(** The header line itself has the name ['function']: it gets its sort
    links and no other. *)
Lemma header_line_formatted :
  Formatter.process_line [] Sample.header_line None
  = ("   <a href='?sort=calls'>ncalls</a>  <a href='?sort=time'>tottime</a>  percall  <a href='?sort=cumulative'>cumtime</a>  percall <a href='?sort=module'>filename</a>:<a href='?sort=nfl'>lineno</a>(function)"
     ++ str1 LF,
     Some 46).
Proof. reflexivity. Qed.

(** The name restriction matches the whole name between the parentheses:
    [fo] does not select [foo], and a dot in a name is no wildcard. *)
Lemma name_restriction_is_exact :
  option_map (fun p => Pattern.search p "mod.py:10(foo)")
             (Pattern.parse ("\(" ++ Re.escape "foo" ++ "\)")) = Some true
  /\ option_map (fun p => Pattern.search p "mod.py:10(foo)")
                (Pattern.parse ("\(" ++ Re.escape "fo" ++ "\)")) = Some false
  /\ option_map (fun p => Pattern.search p "mod.py:10(fxo)")
                (Pattern.parse ("\(" ++ Re.escape "f.o" ++ "\)")) = Some false.
Proof. repeat split. Qed.

End SampleRuns.

(** ** The pairs written into a link target *)

Section TargetPairs.

Lemma getitem_dict_of_query (k : string) (rq : request_query) :
  dict_getitem k (dict_of_query rq) = option_map Some (query_get k rq).
Proof.
  unfold dict_of_query.
  assert (G : forall d,
    dict_getitem k
      (fold_left (fun d kv => dict_setitem (fst kv) (Some (snd kv)) d) rq d)
    = match query_get k rq with
      | Some v => Some (Some v)
      | None => dict_getitem k d
      end).
  { induction rq as [|[j v] rq IH]; intros d; simpl; [reflexivity|].
    rewrite IH. destruct (query_get k rq) as [w|]; [reflexivity|].
    destruct (String.eqb_spec k j) as [->|D].
    - apply getitem_setitem_same.
    - now apply getitem_setitem_other. }
  rewrite G. now destruct (query_get k rq).
Qed.

Lemma getitem_assign_all_other (keyvals d : dict) (k : string) :
  ~ In k (dict_keys keyvals) ->
  dict_getitem k (dict_assign_all keyvals d) = dict_getitem k d.
Proof.
  unfold dict_assign_all. revert d.
  induction keyvals as [|[j v] kvs IH]; simpl; intros d H; [reflexivity|].
  rewrite IH by tauto. apply getitem_setitem_other.
  intros ->. apply H. now left.
Qed.

Lemma query_get_present (k : string) (d : dict) :
  NoDup (dict_keys d) ->
  query_get k (LinkRule.present d)
  = match dict_getitem k d with
    | Some v => v
    | None => None
    end.
Proof.
  induction d as [|[j [v|]] d IH]; simpl; intros N;
    inversion N as [|? ? Hn N']; subst; [reflexivity | |].
  - destruct (String.eqb_spec k j) as [->|D].
    + rewrite query_get_absent; [reflexivity|].
      intros x Hx. apply Hn. apply present_In in Hx.
      change j with (fst (j, Some x)). now apply in_map.
    + rewrite IH by exact N'.
      now destruct (query_get k (LinkRule.present d)), (dict_getitem k d) as [[?|]|].
  - destruct (String.eqb_spec k j) as [->|D]; [|now apply IH].
    rewrite IH by exact N'.
    assert (G : dict_getitem j d = None) by now apply getitem_None.
    now rewrite G.
Qed.

(** What the query dictionary of [get_updated_href] holds for a key. *)
Lemma assigned_getitem (rq : request_query) (keyvals : dict) (k : string) :
  NoDup (dict_keys keyvals) ->
  dict_getitem k (dict_assign_all keyvals (dict_of_query rq))
  = match dict_getitem k keyvals with
    | Some v => Some v
    | None => option_map Some (query_get k rq)
    end.
Proof.
  intros N. destruct (dict_getitem k keyvals) as [v|] eqn:E.
  - apply getitem_In in E. now apply getitem_assign_all.
  - apply getitem_None in E.
    rewrite getitem_assign_all_other by exact E.
    apply getitem_dict_of_query.
Qed.

(** X1: the pairs written into a link target.  The target is the text
    of a list of pairs, one for each key, in which a changed key has its
    new value (no pair when it was cleared) and every other key has the
    value that the current request gives it, the last one when the request
    repeats the key. *)
Theorem target_pairs_lookup (rq : request_query) (keyvals : dict) :
  NoDup (dict_keys keyvals) ->
  Stats.get_updated_href rq keyvals
  = LinkRule.query_string (LinkRule.carried rq keyvals)
  /\ NoDup (map fst (LinkRule.carried rq keyvals))
  /\ forall k : string,
       query_get k (LinkRule.carried rq keyvals)
       = match dict_getitem k keyvals with
         | Some v => v
         | None => query_get k rq
         end.
Proof.
  intros N.
  assert (Nd : NoDup (dict_keys (dict_assign_all keyvals (dict_of_query rq))))
    by apply assign_all_NoDup, dict_of_query_NoDup.
  split; [apply href_of_assigned|]. split.
  - unfold LinkRule.carried. now apply present_keys_NoDup.
  - intros k. unfold LinkRule.carried.
    rewrite query_get_present by exact Nd.
    rewrite assigned_getitem by exact N.
    destruct (dict_getitem k keyvals) as [v|]; [reflexivity|].
    now destruct (query_get k rq).
Qed.

(** The name link of a stat line, built on a request that selects a
    location and a sort word: the name is written, the location is not,
    the sort word stays. *)
Lemma target_pairs_lookup_witness :
  Stats.get_updated_href [("sort", "time"); ("func_loc", "mod.py:10")]
    [(FUNC_LOC_KEY, None); (FUNC_NAME_KEY, Some "foo")]
  = "?sort=time&func_name=foo"
  /\ query_get FUNC_LOC_KEY
       (LinkRule.carried [("sort", "time"); ("func_loc", "mod.py:10")]
                         [(FUNC_LOC_KEY, None); (FUNC_NAME_KEY, Some "foo")])
     = None.
Proof.
  assert (N : NoDup (dict_keys
                [(FUNC_LOC_KEY, None); (FUNC_NAME_KEY, Some "foo")])).
  { repeat constructor; simpl; intuition discriminate. }
  destruct (target_pairs_lookup
              [("sort", "time"); ("func_loc", "mod.py:10")]
              [(FUNC_LOC_KEY, None); (FUNC_NAME_KEY, Some "foo")] N)
    as (Ht & _ & Hk).
  split; [exact Ht | exact (Hk FUNC_LOC_KEY)].
Defined.

Lemma query_string_empty (l : list (string * string)) :
  LinkRule.query_string l = EmptyString <-> l = [].
Proof.
  destruct l as [|kv l]; [easy|]. split; discriminate.
Qed.

(** X2: the link target is the empty string exactly when no parameter is
    left to carry; in every other case it starts with a question mark.  A
    question mark alone is never produced. *)
Theorem href_empty_iff (rq : request_query) (keyvals : dict) :
  (Stats.get_updated_href rq keyvals = EmptyString
   <-> LinkRule.carried rq keyvals = [])
  /\ (Stats.get_updated_href rq keyvals = EmptyString
      \/ PyStr.startswith "?" (Stats.get_updated_href rq keyvals) = true)
  /\ Stats.get_updated_href rq keyvals <> "?".
Proof.
  rewrite href_of_assigned. fold (LinkRule.carried rq keyvals).
  split; [apply query_string_empty|].
  destruct (LinkRule.carried rq keyvals) as [|[k v] l].
  - split; [now left | discriminate].
  - split; [now right|]. unfold LinkRule.query_string.
    destruct l; simpl; unfold LinkRule.pair_text; simpl.
    + destruct k; discriminate.
    + destruct k; discriminate.
Qed.

Lemma join_empty_app (x y : list string) :
  PyStr.join_empty (x ++ y) = PyStr.join_empty x ++ PyStr.join_empty y.
Proof.
  induction x as [|l x IH]; [reflexivity|].
  change (PyStr.join_empty ((l :: x) ++ y))
    with (l ++ PyStr.join_empty (x ++ y)).
  change (PyStr.join_empty (l :: x)) with (l ++ PyStr.join_empty x).
  now rewrite IH, append_assoc.
Qed.

Lemma pairs_text_app (a b : list (string * string)) :
  LinkRule.pairs_text (a ++ b)
  = LinkRule.pairs_text a ++ LinkRule.pairs_text b.
Proof.
  unfold LinkRule.pairs_text. now rewrite map_app, join_empty_app.
Qed.

(** X3: values are written into the target as they are, with no quoting:
    a value that holds [&] and [=] gives the same target as two
    parameters. *)
Theorem href_values_verbatim
        (rq : request_query) (k v k2 v2 : string) :
  k <> k2 ->
  query_get k rq = None ->
  query_get k2 rq = None ->
  Stats.get_updated_href rq [(k, Some (v ++ "&" ++ k2 ++ "=" ++ v2))]
  = Stats.get_updated_href rq [(k, Some v); (k2, Some v2)].
Proof.
  intros D H1 H2.
  assert (A : forall key, query_get key rq = None ->
                          ~ In key (dict_keys (dict_of_query rq))).
  { intros key H. apply getitem_None.
    now rewrite getitem_dict_of_query, H. }
  rewrite !href_of_assigned, <- !chop_serialized. do 2 f_equal.
  unfold dict_assign_all. simpl.
  rewrite !(setitem_new k) by now apply A.
  rewrite setitem_new.
  - rewrite !present_app, !pairs_text_app, append_assoc. f_equal.
    change ((k ++ "=" ++ (v ++ "&" ++ k2 ++ "=" ++ v2) ++ "&") ++ EmptyString
            = ((k ++ "=" ++ v ++ "&") ++ EmptyString)
              ++ (k2 ++ "=" ++ v2 ++ "&") ++ EmptyString).
    now rewrite !append_assoc, !append_nil_r.
  - unfold dict_keys. rewrite map_app. simpl. intros I.
    apply in_app_or in I as [I|[I|[]]]; [now apply (A k2 H2) | now apply D].
Qed.

Lemma href_values_verbatim_witness :
  Stats.get_updated_href [("sort", "time")]
    [(FUNC_NAME_KEY, Some ("a" ++ "&" ++ "x" ++ "=" ++ "b"))]
  = Stats.get_updated_href [("sort", "time")]
      [(FUNC_NAME_KEY, Some "a"); ("x", Some "b")].
Proof.
  apply href_values_verbatim; [discriminate | reflexivity | reflexivity].
Defined.

End TargetPairs.

(** ** The loop of [read] *)

Section ReadLoop.

Lemma stats_line_search_spec_witness :
  Re.stats_line_search
    ("mod.py:10(foo)  <-  1  0.000  mod.py:3(bar)" ++ str1 LF)
  = Some ("mod.py:10(foo)  <-  1  0.000  mod.py:3", "bar").
Proof.
  apply (stats_line_search_spec
           "mod.py:10(foo)  <-  1  0.000  mod.py:3(bar)"
           "mod.py:10(foo)  <-  1  0.000  mod.py:3" "bar" eq_refl).
  split; reflexivity.
Defined.

Lemma info_after_app (rq : request_query) (a b : list string)
      (i : Formatter.info) :
  Formatter.info_after rq (a ++ b) i
  = Formatter.info_after rq b (Formatter.info_after rq a i).
Proof.
  revert i. induction a as [|l a IH]; intros i; [reflexivity|].
  simpl. apply IH.
Qed.

Lemma info_not_recorded (rq : request_query) (lines : list string) :
  (forall l, In l lines ->
             Re.header_line_search l = false
             \/ PyStr.find Stats.FUNCTION_SIG_HEADER l = None) ->
  Formatter.info_after rq lines None = None.
Proof.
  induction lines as [|l lines IH]; intros H; [reflexivity|].
  simpl. unfold Formatter.process_line, Formatter.format_header.
  assert (IH' : Formatter.info_after rq lines None = None)
    by (apply IH; intros x Hx; apply H; now right).
  destruct (Re.header_line_search l) eqn:E; simpl; [|exact IH'].
  destruct (H l (or_introl eq_refl)) as [F|F]; [congruence|].
  now rewrite F.
Qed.

(** X4: the column of the signatures is taken from the first header line
    that holds the signature header, as it stands in the unformatted
    line, and it is the column used for every line after it: later
    header lines do not change it. *)
Theorem column_from_first_signature_header
        (rq : request_query) (before after : list string)
        (h : string) (p : nat) :
  (forall l, In l before ->
             Re.header_line_search l = false
             \/ PyStr.find Stats.FUNCTION_SIG_HEADER l = None) ->
  Re.header_line_search h = true ->
  PyStr.find Stats.FUNCTION_SIG_HEADER h = Some p ->
  Formatter.info_after rq (before ++ h :: after) None = Some p
  /\ forall later line rest,
       after = (later ++ line :: rest)%list ->
       nth_error
         (Formatter.process_lines rq (before ++ h :: after) None)
         (List.length before + S (List.length later))
       = Some (fst (Formatter.process_line rq line (Some p))).
Proof.
  intros Hb Hh Hf.
  assert (E : Formatter.info_after rq (before ++ [h]) None = Some p).
  { rewrite info_after_app, (info_not_recorded rq before Hb). simpl.
    unfold Formatter.process_line, Formatter.format_header.
    now rewrite Hh, Hf. }
  split.
  - change (h :: after) with ([h] ++ after)%list.
    rewrite app_assoc, info_after_app, E. apply info_kept.
  - intros later line rest ->.
    change (h :: later ++ line :: rest)%list
      with ([h] ++ later ++ line :: rest)%list.
    rewrite !app_assoc, process_lines_app.
    rewrite nth_error_app2;
      rewrite process_lines_length, !length_app; simpl; [|lia].
    replace (List.length before + S (List.length later)
             - (List.length before + 1 + List.length later)) with 0 by lia.
    rewrite info_after_app, E, info_kept. simpl.
    now destruct (Formatter.process_line rq line (Some p)).
Qed.

Lemma column_from_first_signature_header_witness :
  Formatter.info_after []
    (splitlines_keepends Preamble.text
     ++ Sample.header_line :: [Sample.stat_line; Sample.header_line])
    None
  = Some 46.
Proof.
  apply (column_from_first_signature_header
           [] (splitlines_keepends Preamble.text)
           [Sample.stat_line; Sample.header_line] Sample.header_line 46).
  - intros l Hl. left. vm_compute in Hl.
    repeat (destruct Hl as [<-|Hl]; [reflexivity|]). destruct Hl.
  - reflexivity.
  - reflexivity.
Defined.

Lemma process_lines_unchanged (rq : request_query) (lines : list string) :
  (forall l, In l lines ->
             Re.header_line_search l = false
             /\ match Re.stats_line_search l with
                | Some (_, func_name) => Formatter.ignored func_name = true
                | None => True
                end) ->
  forall i, Formatter.process_lines rq lines i = lines.
Proof.
  induction lines as [|l lines IH]; intros H i; [reflexivity|].
  simpl. destruct (H l (or_introl eq_refl)) as [Hh Hs].
  rewrite process_line_plain by exact Hh.
  rewrite IH by (intros x Hx; apply H; now right).
  f_equal. unfold Formatter.format_stat.
  destruct (Re.stats_line_search l) as [[p f]|]; [|reflexivity].
  now rewrite Hs.
Qed.

(** X5: a text in which no line holds a header word and no line is a stat
    line with a name to link is returned by [read] as it is: the lines
    are split and joined again without loss. *)
Theorem format_report_unchanged (rq : request_query) (output : string) :
  (forall l, In l (splitlines_keepends output) ->
             Re.header_line_search l = false
             /\ match Re.stats_line_search l with
                | Some (_, func_name) => Formatter.ignored func_name = true
                | None => True
                end) ->
  Formatter.format_report rq output = output.
Proof.
  intros H. unfold Formatter.format_report.
  rewrite process_lines_unchanged by exact H.
  apply splitlines_join.
Qed.

Lemma format_report_unchanged_witness :
  Formatter.format_report [("sort", "time")] Preamble.text = Preamble.text.
Proof.
  apply format_report_unchanged. intros l Hl. vm_compute in Hl.
  repeat (destruct Hl as [<-|Hl]; [split; reflexivity|]). destruct Hl.
Defined.

End ReadLoop.

(** ** The controller, request by request *)

Section ControllerRuns.

Context {lib : AggregationLibrary}.

(** The request handler as a chain of the three library calls that can
    fail, with the page it builds when none does. *)
Lemma route_handler_chain (profile : source) (title : string)
      (rq : request_query) :
  let func_name := or_empty (query_get FUNC_NAME_KEY rq) in
  let func_loc := or_empty (query_get FUNC_LOC_KEY rq) in
  let word :=
    str_or (or_empty (query_get SORT_KEY rq)) Stats.DEFAULT_SORT_ARG in
  let restrictions := build_restrictions func_name func_loc in
  route_handler profile title rq
  = (st <- load profile ;;
     st1 <- sort_stats word st ;;
     st2 <- sort_stats word st1 ;;
     Ok {| page_title := title;
           page_stats :=
             Formatter.format_report rq (print_stats restrictions st2);
           page_callers :=
             if truthy func_name
             then Formatter.format_report rq (print_callers restrictions st1)
             else EmptyString;
           page_callees :=
             if truthy func_name
             then Formatter.format_report rq (print_callees restrictions st1)
             else EmptyString;
           page_restrictions := restrictions |}).
Proof.
  intros func_name func_loc word restrictions.
  unfold route_handler, init.
  destruct (load profile) as [st|e]; [|reflexivity].
  cbn [bind]. fold func_name func_loc restrictions.
  unfold sort at 1. cbn [stats stream]. fold word.
  destruct (sort_stats word st) as [st1|e]; [|reflexivity].
  cbn [bind].
  set (s1 := {| stream := StringIO.new; stats := st1 |}).
  assert (Hc :
    (if truthy func_name then read rq (show_callers restrictions s1)
     else (EmptyString, s1))
    = (if truthy func_name
       then Formatter.format_report rq (print_callers restrictions st1)
       else EmptyString, s1)).
  { destruct (truthy func_name); [|reflexivity].
    change (show_callers restrictions s1)
      with (run_calls [ShowCallers restrictions] s1).
    unfold s1. rewrite read_after_calls. unfold calls_text.
    cbn [map call_text]. now rewrite join_empty_cons, append_nil_r. }
  rewrite Hc.
  assert (He :
    (if truthy func_name then read rq (show_callees restrictions s1)
     else (EmptyString, s1))
    = (if truthy func_name
       then Formatter.format_report rq (print_callees restrictions st1)
       else EmptyString, s1)).
  { destruct (truthy func_name); [|reflexivity].
    change (show_callees restrictions s1)
      with (run_calls [ShowCallees restrictions] s1).
    unfold s1. rewrite read_after_calls. unfold calls_text.
    cbn [map call_text]. now rewrite join_empty_cons, append_nil_r. }
  rewrite He.
  unfold sort, s1. cbn [stats stream]. fold word.
  destruct (sort_stats word st1) as [st2|e]; [|reflexivity].
  cbn [bind].
  change (show restrictions {| stream := StringIO.new; stats := st2 |})
    with (run_calls [Show restrictions]
            {| stream := StringIO.new; stats := st2 |}).
  rewrite read_after_calls. unfold calls_text.
  cbn [map call_text]. now rewrite join_empty_cons, append_nil_r.
Qed.

(** X7: the callers and the callees reports are printed only when a
    function name is selected (a selected location alone gives none), with
    the same restrictions as the main report, from the statistics as they
    are after the first sort; each is read on its own, so none of its text
    reaches the main report, which is printed after the second sort. *)
Theorem route_handler_blocks
        (profile : source) (title : string) (rq : request_query)
        (st st1 st2 : pstats) :
  let func_name := or_empty (query_get FUNC_NAME_KEY rq) in
  let func_loc := or_empty (query_get FUNC_LOC_KEY rq) in
  let word :=
    str_or (or_empty (query_get SORT_KEY rq)) Stats.DEFAULT_SORT_ARG in
  let restrictions := build_restrictions func_name func_loc in
  load profile = Ok st ->
  sort_stats word st = Ok st1 ->
  sort_stats word st1 = Ok st2 ->
  exists page,
    route_handler profile title rq = Ok page
    /\ page_title page = title
    /\ page_callers page
       = (if truthy func_name
          then Formatter.format_report rq (print_callers restrictions st1)
          else EmptyString)
    /\ page_callees page
       = (if truthy func_name
          then Formatter.format_report rq (print_callees restrictions st1)
          else EmptyString)
    /\ page_stats page
       = Formatter.format_report rq (print_stats restrictions st2).
Proof.
  intros func_name func_loc word restrictions Hl H1 H2.
  pose proof (route_handler_chain profile title rq) as E.
  cbv zeta in E. fold func_name func_loc word restrictions in E.
  rewrite Hl in E. cbn [bind] in E. rewrite H1 in E. cbn [bind] in E.
  rewrite H2 in E. cbn [bind] in E.
  eexists. split; [exact E|]. now repeat split.
Qed.

(** X8: the request fails exactly when building the statistics object
    fails or one of the two sorts fails, and then with that error; the
    formatting itself never fails. *)
Theorem route_handler_fails_iff
        (profile : source) (title : string) (rq : request_query) (e : exn) :
  let word :=
    str_or (or_empty (query_get SORT_KEY rq)) Stats.DEFAULT_SORT_ARG in
  route_handler profile title rq = Raise e
  <-> load profile = Raise e
      \/ exists st,
           load profile = Ok st
           /\ (sort_stats word st = Raise e
               \/ exists st1,
                    sort_stats word st = Ok st1
                    /\ sort_stats word st1 = Raise e).
Proof.
  intros word.
  pose proof (route_handler_chain profile title rq) as E.
  cbv zeta in E. fold word in E. rewrite E. clear E.
  split.
  - destruct (load profile) as [st|e0]; cbn [bind];
      [|intros [= ->]; now left].
    intros H. right. exists st. split; [reflexivity|].
    destruct (sort_stats word st) as [st1|e1]; cbn [bind] in H;
      [|injection H as ->; now left].
    right. exists st1. split; [reflexivity|].
    destruct (sort_stats word st1) as [st2|e2]; cbn [bind] in H;
      [discriminate | now injection H as ->].
  - intros [H|(st & H & [H1|(st1 & H1 & H2)])]; rewrite H; cbn [bind].
    + reflexivity.
    + now rewrite H1.
    + rewrite H1. cbn [bind]. now rewrite H2.
Qed.

End ControllerRuns.

(** ** Small facts on truth values and prefixes *)

Section TruthAndPrefix.

Lemma truthy_nonempty (s : string) : s <> EmptyString -> truthy s = true.
Proof.
  intros H. unfold truthy.
  now destruct (String.eqb_spec s EmptyString).
Qed.

Lemma startswith_self_append (x y : string) :
  PyStr.startswith x (x ++ y) = true.
Proof.
  induction x as [|c x IH]; simpl; [reflexivity|].
  now rewrite Ascii.eqb_refl.
Qed.

End TruthAndPrefix.

(** ** The header line *)

Section HeaderLine.

Lemma render_prepend (t : string) (x : Markup.marked) :
  Markup.render (Markup.prepend t x) = t ++ Markup.render x.
Proof. destruct x; simpl; [reflexivity | now rewrite append_assoc]. Qed.

Lemma render_join (a b : Markup.marked) :
  Markup.render (Markup.join a b) = Markup.render a ++ Markup.render b.
Proof.
  induction a as [t|t m r IH]; simpl; [apply render_prepend|].
  rewrite IH. rewrite !append_assoc. simpl. now rewrite !append_assoc.
Qed.

Lemma text_prepend (t : string) (x : Markup.marked) :
  Markup.text_of (Markup.prepend t x) = t ++ Markup.text_of x.
Proof. destruct x; simpl; [reflexivity | now rewrite append_assoc]. Qed.

Lemma text_join (a b : Markup.marked) :
  Markup.text_of (Markup.join a b) = Markup.text_of a ++ Markup.text_of b.
Proof.
  induction a as [t|t m r IH]; simpl; [apply text_prepend|].
  now rewrite IH, append_assoc.
Qed.

Lemma tags_prepend (t : string) (x : Markup.marked) :
  Markup.tags (Markup.prepend t x) = Markup.tags x.
Proof. now destruct x. Qed.

Lemma tags_join (a b : Markup.marked) :
  Markup.tags (Markup.join a b) = (Markup.tags a ++ Markup.tags b)%list.
Proof.
  induction a as [t|t m r IH]; simpl; [apply tags_prepend | now rewrite IH].
Qed.

Lemma render_link (url text : string) (rest : Markup.marked) :
  Markup.render (Markup.link url text rest)
  = Bottle.link url text ++ Markup.render rest.
Proof.
  unfold Markup.link, Markup.anchor, Bottle.link. simpl.
  rewrite !append_assoc. simpl. now rewrite !append_assoc.
Qed.

(** The marked text is the replacement. *)
Lemma render_mark (key url s : string) (k : nat) :
  Markup.render (Markup.mark_from k key url s)
  = PyStr.replace_from k key (Bottle.link url key) s.
Proof.
  revert k. induction s as [|c s IH]; intros k; [reflexivity|].
  cbn [Markup.mark_from PyStr.replace_from]. destruct k as [|k]; [|apply IH].
  destruct (PyStr.startswith key (String c s)).
  - now rewrite render_link, IH.
  - now rewrite render_prepend, IH.
Qed.

Lemma startswith_split (key s : string) :
  PyStr.startswith key s = true ->
  s = key ++ PyStr.drop (String.length key) s.
Proof.
  revert s. induction key as [|a key IH]; intros [|b s]; simpl; try easy.
  intros H. apply andb_prop in H as [H1 H2].
  apply Ascii.eqb_eq in H1. subst b. f_equal. now apply IH.
Qed.

(** The replacement leaves the text between the tags as it was. *)
Lemma text_mark (key url s : string) (k : nat) :
  key <> EmptyString ->
  Bottle.html_escape key = key ->
  Markup.text_of (Markup.mark_from k key url s) = PyStr.drop k s.
Proof.
  intros Hk He. revert k. induction s as [|c s IH]; intros k.
  - now destruct k.
  - cbn [Markup.mark_from]. destruct k as [|k]; [|apply IH].
    destruct (PyStr.startswith key (String c s)) eqn:E.
    + unfold Markup.link. simpl. rewrite He, IH.
      pose proof (startswith_split key (String c s) E) as Sp.
      destruct key as [|a key]; [easy|]. simpl in Sp |- *.
      rewrite Nat.sub_0_r. now injection Sp as <- <-.
    + now rewrite text_prepend, IH.
Qed.

Lemma tags_mark (key url s : string) (k : nat) :
  Forall (fun m => m = Markup.anchor url \/ m = "/a")
         (Markup.tags (Markup.mark_from k key url s)).
Proof.
  revert k. induction s as [|c s IH]; intros k; [constructor|].
  cbn [Markup.mark_from]. destruct k as [|k]; [|apply IH].
  destruct (PyStr.startswith key (String c s)).
  - unfold Markup.link. simpl. constructor; [now left|].
    constructor; [now right | apply IH].
  - rewrite tags_prepend. apply IH.
Qed.

Lemma startswith_length (key s : string) :
  PyStr.startswith key s = true -> String.length key <= String.length s.
Proof.
  revert s. induction key as [|a key IH]; intros [|b s]; simpl;
    try easy; try lia.
  intros H. apply andb_prop in H as [_ H]. apply IH in H. lia.
Qed.

(** What follows a text does not change the search for [key] in the text
    when it starts with a character that is not in [key]. *)
Lemma startswith_before (key a b : string) :
  (forall c b', b = String c b' -> PyStr.has_char c key = false) ->
  PyStr.startswith key (a ++ b) = PyStr.startswith key a.
Proof.
  intros Hb. revert a. induction key as [|x key IH]; intros a.
  - now destruct a, b.
  - destruct a as [|y a]; simpl.
    + destruct b as [|c b']; [reflexivity|]. simpl.
      specialize (Hb c b' eq_refl). simpl in Hb.
      apply orb_false_elim in Hb as [Hb _]. now rewrite Hb.
    + rewrite IH; [reflexivity|].
      intros c b' E. specialize (Hb c b' E). simpl in Hb.
      now apply orb_false_elim in Hb as [_ Hb].
Qed.

Lemma replace_before (key new a b : string) (k : nat) :
  (forall c b', b = String c b' -> PyStr.has_char c key = false) ->
  k <= String.length a ->
  PyStr.replace_from k key new (a ++ b)
  = PyStr.replace_from k key new a ++ PyStr.replace_from 0 key new b.
Proof.
  intros Hb. revert k. induction a as [|c a IH]; intros k Hk.
  - simpl in Hk. now replace k with 0 by lia.
  - change (String c a ++ b) with (String c (a ++ b)).
    cbn [PyStr.replace_from]. destruct k as [|k];
      [|apply IH; simpl in Hk; lia].
    change (String c (a ++ b)) with (String c a ++ b).
    rewrite (startswith_before key (String c a) b Hb).
    destruct (PyStr.startswith key (String c a)) eqn:E.
    + apply startswith_length in E. simpl in E.
      rewrite IH by lia. now rewrite append_assoc.
    + now rewrite IH by lia.
Qed.

Lemma replace_absent (key new s : string) :
  PyStr.contains key s = false -> PyStr.replace_from 0 key new s = s.
Proof.
  induction s as [|c s IH]; intros H; [reflexivity|].
  rewrite contains_unfold in H. apply orb_false_elim in H as [H1 H2].
  cbn [PyStr.replace_from]. now rewrite H1, IH.
Qed.

Lemma word_ok_facts (key : string) :
  Markup.word_ok key = true ->
  key <> EmptyString
  /\ PyStr.has_char "<"%char key = false
  /\ PyStr.has_char ">"%char key = false
  /\ Bottle.html_escape key = key.
Proof.
  unfold Markup.word_ok. intros H.
  apply andb_prop in H as [H H4]. apply andb_prop in H as [H H3].
  apply andb_prop in H as [H1 H2].
  apply negb_true_iff in H1, H2, H3.
  apply String.eqb_neq in H1. apply String.eqb_eq in H4. tauto.
Qed.

Lemma contains_after_char (key s : string) (c : ascii) :
  PyStr.has_char c key = false -> key <> EmptyString ->
  PyStr.contains key (String c s) = PyStr.contains key s.
Proof.
  intros Hc Hk. rewrite contains_unfold.
  destruct key as [|a key]; [easy|]. simpl in Hc |- *.
  apply orb_false_elim in Hc as [Hc _]. now rewrite Hc.
Qed.

(** The replacement in a line with tags goes through the texts between
    the tags, when no tag holds the word. *)
Lemma replace_render (key url : string) (x : Markup.marked) :
  Markup.word_ok key = true ->
  Forall (fun m => PyStr.contains key m = false) (Markup.tags x) ->
  PyStr.replace key (Bottle.link url key) (Markup.render x)
  = Markup.render (Markup.replace_in key url x).
Proof.
  intros Hw. destruct (word_ok_facts key Hw) as (Hk & Hlt & Hgt & _).
  unfold PyStr.replace.
  induction x as [t|t m r IH]; intros Ht; simpl.
  - now rewrite render_mark.
  - inversion Ht as [|? ? Hm Hr]; subst.
    rewrite render_join, render_mark. simpl.
    rewrite replace_before; [|intros c b' [= <- _]; exact Hlt | lia].
    f_equal.
    change (String "<" (m ++ String ">" (Markup.render r)))
      with (String "<" m ++ String ">" (Markup.render r)).
    rewrite replace_before; [|intros c b' [= <- _]; exact Hgt | lia].
    rewrite replace_absent by now rewrite contains_after_char.
    simpl. f_equal. f_equal.
    cbn [PyStr.replace_from].
    assert (S : PyStr.startswith key (String ">" (Markup.render r)) = false).
    { destruct key as [|a key]; [easy|]. simpl in Hgt |- *.
      apply orb_false_elim in Hgt as [Hgt _].
      now rewrite Hgt. }
    rewrite S. f_equal. now apply IH.
Qed.

Lemma text_replace_in (key url : string) (x : Markup.marked) :
  Markup.word_ok key = true ->
  Markup.text_of (Markup.replace_in key url x) = Markup.text_of x.
Proof.
  intros Hw. destruct (word_ok_facts key Hw) as (Hk & _ & _ & He).
  induction x as [t|t m r IH]; simpl.
  - now rewrite text_mark.
  - rewrite text_join, text_mark by assumption. simpl. now rewrite IH.
Qed.

Lemma tags_replace_in (key url : string) (x : Markup.marked) :
  Forall (fun m => In m (Markup.tags x)
                   \/ m = Markup.anchor url \/ m = "/a")
         (Markup.tags (Markup.replace_in key url x)).
Proof.
  induction x as [t|t m r IH]; simpl.
  - eapply Forall_impl; [|apply tags_mark]. intros a H. now right.
  - rewrite tags_join. apply Forall_app. split.
    + eapply Forall_impl; [|apply tags_mark]. intros a H. now right.
    + simpl. constructor; [left; now left|].
      eapply Forall_impl; [|exact IH]. intros a [H|H]; [left; now right|].
      now right.
Qed.

Lemma entity_at_plain (c : ascii) (s : string) :
  Ascii.eqb c "&"%char = false -> Html.entity_at (String c s) = None.
Proof.
  intros H. rewrite Ascii.eqb_sym in H. unfold Html.entity_at.
  change (PyStr.startswith "&amp;" (String c s))
    with (Ascii.eqb "&" c && PyStr.startswith "amp;" s).
  change (PyStr.startswith "&lt;" (String c s))
    with (Ascii.eqb "&" c && PyStr.startswith "lt;" s).
  change (PyStr.startswith "&gt;" (String c s))
    with (Ascii.eqb "&" c && PyStr.startswith "gt;" s).
  change (PyStr.startswith "&quot;" (String c s))
    with (Ascii.eqb "&" c && PyStr.startswith "quot;" s).
  change (PyStr.startswith "&#039;" (String c s))
    with (Ascii.eqb "&" c && PyStr.startswith "#039;" s).
  now rewrite H.
Qed.

Lemma decode_plain (s : string) :
  PyStr.has_char "&"%char s = false -> Html.decode 0 s = s.
Proof.
  induction s as [|c s IH]; intros H; [reflexivity|].
  simpl in H. apply orb_false_elim in H as [H1 H2].
  cbn [Html.decode]. rewrite (entity_at_plain c s H1). now rewrite IH.
Qed.

Lemma strip_render (x : Markup.marked) :
  PyStr.has_char "<"%char (Markup.text_of x) = false ->
  Forall (fun m => PyStr.has_char ">"%char m = false) (Markup.tags x) ->
  Html.strip_tags false (Markup.render x) = Markup.text_of x.
Proof.
  induction x as [t|t m r IH]; simpl; intros Ht Hm.
  - rewrite <- (append_nil_r t) at 1. rewrite strip_outside by exact Ht.
    simpl. now rewrite append_nil_r.
  - rewrite has_char_append in Ht. apply orb_false_elim in Ht as [Ht Hr].
    inversion Hm as [|? ? Hm1 Hm2]; subst.
    rewrite strip_outside by exact Ht. f_equal.
    cbn [Html.strip_tags]. rewrite Ascii.eqb_refl.
    rewrite strip_inside by exact Hm1.
    cbn [Html.strip_tags]. rewrite Ascii.eqb_refl. simpl.
    now apply IH.
Qed.

End HeaderLine.

(** ** The sort links of the header line *)

Section HeaderLinks.

Lemma anchor_no_gt (url : string) :
  PyStr.has_char ">"%char (Markup.anchor url) = false.
Proof.
  unfold Markup.anchor. rewrite !has_char_append, escaped_no_gt. reflexivity.
Qed.

Lemma anchor_in_link (key url : string) :
  PyStr.contains key (Bottle.link url EmptyString) = false ->
  PyStr.contains key (Markup.anchor url) = false.
Proof.
  intros H. destruct (PyStr.contains key (Markup.anchor url)) eqn:E;
    [|reflexivity].
  rewrite <- H. symmetry.
  assert (L : Bottle.link url EmptyString
              = "<" ++ Markup.anchor url ++ "></a>").
  { unfold Bottle.link, Markup.anchor. simpl. f_equal. f_equal.
    now rewrite !append_assoc. }
  rewrite L. apply contains_append_r. now apply contains_append_l.
Qed.

Lemma sort_words_ok :
  forallb (fun kv => Markup.word_ok (fst kv)
                     && negb (PyStr.contains (fst kv) "/a"))
          Stats.SORT_ARGS = true.
Proof. reflexivity. Qed.

Lemma clean_anchor (rq : request_query) (word target : string * string) :
  SortLinks.clean rq = true ->
  In word Stats.SORT_ARGS -> In target Stats.SORT_ARGS ->
  PyStr.contains (fst word) (Markup.anchor (SortLinks.url rq (snd target)))
  = false.
Proof.
  unfold SortLinks.clean. intros H Hw Ht.
  rewrite forallb_forall in H. specialize (H target Ht).
  rewrite forallb_forall in H. specialize (H word Hw).
  apply negb_true_iff in H. now apply anchor_in_link.
Qed.

(** The header half of [process_line], followed on the marked-up line. *)
Lemma fold_sort_links (rq : request_query) (kvs : list (string * string)) :
  SortLinks.clean rq = true ->
  incl kvs Stats.SORT_ARGS ->
  forall x,
    (forall kv m, In kv kvs -> In m (Markup.tags x) ->
                  PyStr.contains (fst kv) m = false) ->
    Forall (fun m => PyStr.has_char ">"%char m = false) (Markup.tags x) ->
    fold_left (Formatter.sort_link_step rq) kvs (Markup.render x)
    = Markup.render (SortLinks.mark_all rq kvs x)
    /\ Markup.text_of (SortLinks.mark_all rq kvs x) = Markup.text_of x
    /\ Forall (fun m => PyStr.has_char ">"%char m = false)
              (Markup.tags (SortLinks.mark_all rq kvs x)).
Proof.
  intros Hc. induction kvs as [|kv kvs IH]; intros Hi x Hx Hgt;
    [now repeat split|].
  assert (Hkv : In kv Stats.SORT_ARGS) by (apply Hi; now left).
  pose proof sort_words_ok as Hok. rewrite forallb_forall in Hok.
  assert (Hw : Markup.word_ok (fst kv) = true)
    by (specialize (Hok kv Hkv); now apply andb_prop in Hok as [Hok _]).
  cbn [fold_left SortLinks.mark_all].
  unfold Formatter.sort_link_step at 2.
  fold (SortLinks.url rq (snd kv)).
  rewrite replace_render;
    [|exact Hw | apply Forall_forall; intros m Hm; apply Hx; [now left | exact Hm]].
  set (x' := Markup.replace_in (fst kv) (SortLinks.url rq (snd kv)) x).
  pose proof (tags_replace_in (fst kv) (SortLinks.url rq (snd kv)) x) as Ht.
  fold x' in Ht. rewrite Forall_forall in Ht.
  destruct (IH (fun a Ha => Hi a (or_intror Ha)) x') as (R & T & G).
  - intros kv' m Hk' Hm. destruct (Ht m Hm) as [H|[->| ->]].
    + apply Hx; [now right | exact H].
    + apply clean_anchor; [exact Hc | apply Hi; now right | exact Hkv].
    + specialize (Hok kv' (Hi kv' (or_intror Hk'))).
      apply andb_prop in Hok as [_ Hok]. now apply negb_true_iff in Hok.
  - apply Forall_forall. intros m Hm. destruct (Ht m Hm) as [H|[->| ->]].
    + rewrite Forall_forall in Hgt. now apply Hgt.
    + apply anchor_no_gt.
    + reflexivity.
  - split; [exact R|]. split; [|exact G].
    unfold SortLinks.mark_all in T |- *. rewrite T.
    now apply text_replace_in.
Qed.

(** X12: the header half of [process_line] keeps the text of the line.
    For a line with no [<] and no [&] in it, and a request no sort link of
    which holds a header word, the line after the replacement of the
    header words by their sort links shows the line as it was; so does the
    line that [process_line] returns, when its stat half has no name to
    link. *)
Theorem header_links_keep_text
        (rq : request_query) (line : string) (i : Formatter.info) :
  PyStr.has_char "<"%char line = false ->
  PyStr.has_char "&"%char line = false ->
  SortLinks.clean rq = true ->
  Html.visible_text (fst (Formatter.format_header rq line i)) = line
  /\ (match Re.stats_line_search (fst (Formatter.format_header rq line i)) with
      | Some (_, func_name) => Formatter.ignored func_name = true
      | None => True
      end ->
      Html.visible_text (fst (Formatter.process_line rq line i)) = line).
Proof.
  intros Hlt Hamp Hc.
  assert (V : Html.visible_text (fst (Formatter.format_header rq line i))
              = line).
  { unfold Formatter.format_header.
    destruct (Re.header_line_search line); cbn [fst].
    - destruct (fold_sort_links rq Stats.SORT_ARGS Hc (incl_refl _)
                  (Markup.Tail line)) as (R & T & G);
        [intros kv m _ [] | constructor|].
      cbn [Markup.render Markup.text_of] in R, T.
      rewrite R. unfold Html.visible_text.
      rewrite strip_render;
        [rewrite T; now apply decode_plain | now rewrite T | exact G].
    - unfold Html.visible_text.
      change line with (Markup.render (Markup.Tail line)) at 1.
      rewrite strip_render by (try exact Hlt; constructor).
      now apply decode_plain. }
  split; [exact V|].
  intros Hs. unfold Formatter.process_line.
  destruct (Formatter.format_header rq line i) as [l' i']. cbn [fst] in *.
  unfold Formatter.format_stat.
  destruct (Re.stats_line_search l') as [[p f]|]; [|exact V].
  now rewrite Hs.
Qed.

Lemma header_links_keep_text_witness :
  Html.visible_text (fst (Formatter.process_line [] Sample.header_line None))
  = Sample.header_line.
Proof.
  apply (header_links_keep_text [] Sample.header_line None);
    reflexivity.
Defined.

End HeaderLinks.

(** ** The page *)

Section PageFacts.

Context {lib : AggregationLibrary}.

Lemma contains_self (w : string) : PyStr.contains w w = true.
Proof.
  rewrite contains_unfold. rewrite <- (append_nil_r w) at 2.
  now rewrite startswith_self_append.
Qed.

Lemma contains_inside (w a b : string) :
  PyStr.contains w (a ++ w ++ b) = true.
Proof.
  apply contains_append_r, contains_append_l, contains_self.
Qed.

Lemma escape_plain (s : string) : no_special s = true -> Re.escape s = s.
Proof.
  unfold no_special. induction s as [|c s IH]; simpl; [reflexivity|].
  intros H. apply andb_prop in H as [H1 H2]. apply negb_true_iff in H1.
  now rewrite H1, IH.
Qed.

Lemma item_in_page (d : page_data) (r : string) :
  In r (page_restrictions d) ->
  PyStr.contains ("<li><pre>" ++ r ++ "</pre></li>") (Page.render d) = true.
Proof.
  intros Hr. unfold Page.render.
  do 12 apply contains_append_r. apply contains_append_l.
  destruct (page_restrictions d) as [|r0 rs] eqn:E; [easy|].
  rewrite <- E in *. apply contains_append_r, contains_append_l.
  apply (contains_join _ (Page.item r)); [now apply in_map|].
  unfold Page.item, Page.line.
  rewrite append_assoc. apply contains_append_r, contains_append_l.
  apply contains_self.
Qed.

(** X13: the restrictions are put into the page as they are, with no
    escaping.  For a selected function name none of whose characters is
    escaped by [re.escape], angle brackets among them, the page holds the
    name itself between the escaped parentheses of the restriction; the
    title, in contrast, is escaped. *)
Theorem page_shows_restrictions_raw
        (profile : source) (title : string) (rq : request_query)
        (st st1 st2 : pstats) :
  let func_name := or_empty (query_get FUNC_NAME_KEY rq) in
  let word :=
    str_or (or_empty (query_get SORT_KEY rq)) Stats.DEFAULT_SORT_ARG in
  func_name <> EmptyString ->
  no_special func_name = true ->
  load profile = Ok st ->
  sort_stats word st = Ok st1 ->
  sort_stats word st1 = Ok st2 ->
  exists html,
    route_handler_page profile title rq = Ok html
    /\ PyStr.contains ("<li><pre>\(" ++ func_name ++ "\)</pre></li>") html
       = true
    /\ PyStr.contains
         ("<title>" ++ Bottle.html_escape title ++ " | cProfile Results</title>")
         html
       = true.
Proof.
  intros func_name word Hn Hs Hl H1 H2.
  unfold route_handler_page.
  pose proof (route_handler_chain profile title rq) as E.
  cbv zeta in E. fold func_name word in E. rewrite E. clear E.
  rewrite Hl. cbn [bind]. rewrite H1. cbn [bind]. rewrite H2. cbn [bind].
  eexists. split; [reflexivity|]. split.
  - replace ("<li><pre>\(" ++ func_name ++ "\)</pre></li>")
      with ("<li><pre>" ++ ("\(" ++ func_name ++ "\)") ++ "</pre></li>")
      by (simpl; now rewrite append_assoc).
    apply item_in_page. cbn [page_restrictions].
    unfold build_restrictions. rewrite (truthy_nonempty _ Hn).
    rewrite (escape_plain _ Hs).
    destruct (truthy (or_empty (query_get FUNC_LOC_KEY rq)));
      simpl; now left.
  - unfold Page.render. cbn [page_title].
    do 2 apply contains_append_r. apply contains_append_l.
    unfold Page.line.
    rewrite append_assoc. apply contains_append_r, contains_append_l.
    apply contains_self.
Qed.

End PageFacts.

(** ** The controller and the links on the small library *)

Section MoreSmallLibraryRuns.

Import SmallLibrary.

Lemma route_handler_blocks_witness :
  exists page,
    route_handler (lib := library) one_call "t" [("func_loc", "mod.py:10")]
    = Ok page
    /\ page_callers page = EmptyString
    /\ page_callees page = EmptyString.
Proof.
  destruct (route_handler_blocks (lib := library) one_call "t"
              [("func_loc", "mod.py:10")]
              (loaded one_call)
              {| entries := one_call; sort_type := "cumulative" |}
              {| entries := one_call; sort_type := "cumulative" |}
              eq_refl eq_refl eq_refl)
    as (page & H & _ & Hc & He & _).
  exists page. split; [exact H|]. split; [exact Hc | exact He].
Defined.

Lemma page_shows_restrictions_raw_witness :
  exists html,
    route_handler_page (lib := library) one_call "<t>" [("func_name", "<b>")]
    = Ok html
    /\ PyStr.contains "<li><pre>\(<b>\)</pre></li>" html = true
    /\ PyStr.contains "<title>&lt;t&gt; | cProfile Results</title>" html
       = true.
Proof.
  destruct (page_shows_restrictions_raw (lib := library) one_call "<t>"
              [("func_name", "<b>")]
              (loaded one_call)
              {| entries := one_call; sort_type := "cumulative" |}
              {| entries := one_call; sort_type := "cumulative" |})
    as (html & H & Hr & Ht); try reflexivity; try discriminate.
  exists html. split; [exact H|]. split; [exact Hr | exact Ht].
Defined.

End MoreSmallLibraryRuns.

(** ** Edges of the stat-line half *)

Section StatLineEdges.

Lemma take_beyond (n : nat) (s : string) :
  String.length s <= n -> PyStr.take n s = s.
Proof.
  revert s; induction n as [|n IH]; intros [|c s]; simpl; intros H;
    try reflexivity; try lia.
  rewrite IH; [reflexivity | lia].
Qed.

(** X14: a stat line whose prefix ends before the column of the
    signatures is cut without error: the whole prefix stays in front, and
    the location link has an empty text and a target built with the empty
    string as the location. *)
Theorem short_prefix_location_link
        (rq : request_query) (line prefix func_name : string)
        (func_col_pos : nat) :
  Re.stats_line_search line = Some (prefix, func_name) ->
  Formatter.ignored func_name = false ->
  String.length prefix <= func_col_pos ->
  Formatter.format_stat rq line (Some func_col_pos)
  = Bottle.html_escape prefix
    ++ Bottle.link
         (Stats.get_updated_href rq
            [(FUNC_LOC_KEY, Some EmptyString);
             (FUNC_NAME_KEY, Some func_name)])
         EmptyString
    ++ "("
    ++ Bottle.link
         (Stats.get_updated_href rq
            [(FUNC_LOC_KEY, None); (FUNC_NAME_KEY, Some func_name)])
         func_name
    ++ ")" ++ str1 LF.
Proof.
  intros Hs Hi Hlen.
  unfold Formatter.format_stat. rewrite Hs, Hi.
  now rewrite drop_beyond, take_beyond by exact Hlen.
Qed.

Lemma short_prefix_location_link_witness :
  Formatter.format_stat [] ShortLine.text (Some 46)
  = "totals<a href='?func_loc=&amp;func_name=all'></a>(<a href='?func_name=all'>all</a>)"
    ++ str1 LF.
Proof.
  exact (short_prefix_location_link [] ShortLine.text "totals" "all" 46
           eq_refl eq_refl (proj1 (Nat.leb_le 6 46) eq_refl)).
Defined.

(** X15: a line is a stat line only when the closing parenthesis is its
    last character, or the last one before the line feed that ends it.
    With any other character there, a blank or a carriage return for
    instance, the line is no stat line and gets no link. *)
Theorem no_stat_line_without_final_paren
        (rq : request_query) (body : string) (c : ascii)
        (i : Formatter.info) :
  c <> RPAREN ->
  c <> LF ->
  Re.stats_line_search (body ++ str1 c ++ str1 LF) = None
  /\ Re.stats_line_search (body ++ str1 c) = None
  /\ Formatter.format_stat rq (body ++ str1 c ++ str1 LF) i
     = body ++ str1 c ++ str1 LF.
Proof.
  intros Hp Hl.
  apply Ascii.eqb_neq in Hp, Hl.
  assert (A : Re.stats_line_search (body ++ str1 c ++ str1 LF) = None).
  { rewrite <- append_assoc, search_with_lf, rev_list_ascii_snoc.
    unfold Re.match_reversed. now rewrite Hp. }
  split; [exact A|]. split.
  - unfold Re.stats_line_search. rewrite rev_list_ascii_snoc.
    unfold Re.before_dollar, Re.is_lf. rewrite Hl.
    unfold Re.match_reversed. now rewrite Hp.
  - unfold Formatter.format_stat. now rewrite A.
Qed.

Lemma no_stat_line_without_final_paren_witness :
  Re.stats_line_search ("mod.py:10(foo)" ++ str1 CR ++ str1 LF) = None.
Proof.
  apply (no_stat_line_without_final_paren [] "mod.py:10(foo)" CR None);
    discriminate.
Defined.

End StatLineEdges.

Section PlainRequest.

Context {lib : AggregationLibrary}.

(** X16: a request that selects nothing gives the full report in the
    default order.  When the request holds no function name, no location
    and no sort word, or holds them empty, whatever else it holds, the
    statistics are sorted by ['cumulative'], the main report is printed
    with no restriction, and there is no callers and no callees report. *)
Theorem route_handler_plain_request
        (profile : source) (title : string) (rq : request_query)
        (st st1 st2 : pstats) :
  or_empty (query_get FUNC_NAME_KEY rq) = EmptyString ->
  or_empty (query_get FUNC_LOC_KEY rq) = EmptyString ->
  or_empty (query_get SORT_KEY rq) = EmptyString ->
  load profile = Ok st ->
  sort_stats "cumulative" st = Ok st1 ->
  sort_stats "cumulative" st1 = Ok st2 ->
  route_handler profile title rq
  = Ok {| page_title := title;
          page_stats := Formatter.format_report rq (print_stats [] st2);
          page_callers := EmptyString;
          page_callees := EmptyString;
          page_restrictions := [] |}.
Proof.
  intros Hn Hl Hs Hload H1 H2.
  pose proof (route_handler_chain profile title rq) as E.
  cbv zeta in E. rewrite Hn, Hl, Hs in E.
  change (str_or EmptyString Stats.DEFAULT_SORT_ARG) with "cumulative" in E.
  rewrite Hload in E. cbn [bind] in E.
  rewrite H1 in E. cbn [bind] in E. rewrite H2 in E. exact E.
Qed.

End PlainRequest.

Section PlainRequestRun.

Import SmallLibrary.

Lemma route_handler_plain_request_witness :
  exists page,
    route_handler (lib := library) one_call "t" [("page", "2"); ("sort", "")]
    = Ok page
    /\ page_restrictions page = [].
Proof.
  eexists. split.
  - exact (route_handler_plain_request (lib := library) one_call "t"
             [("page", "2"); ("sort", "")]
             (loaded one_call)
             {| entries := one_call; sort_type := "cumulative" |}
             {| entries := one_call; sort_type := "cumulative" |}
             eq_refl eq_refl eq_refl eq_refl eq_refl eq_refl).
  - reflexivity.
Defined.

End PlainRequestRun.
